(** * DXGL: RAII wrappers around OpenGL object handles

    A shallow embedding of the handle wrappers ([VAO], [GLBuffer],
    [GLTexture], [GLFBO], [GLSLShader], [GLSLProgram]), of the debug string
    tables, of the stderr debug callback and of [GLScopedDebugMarker].

    Every method of the wrappers is a sequence of calls into the OpenGL
    driver (and, for the logging paths, into libc and the C++ allocator).
    A method is therefore embedded as a finite tree of calls, [Prog]: each
    node names the call with its arguments and continues with whatever the
    callee answered.  Running a tree against a driver, [run], yields the
    list of calls that were issued, each with its answer, and the way the
    method ended: it returned a value, or the process was terminated by
    [exit]. *)

From Stdlib Require Import ZArith List String Ascii Bool Lia.
Import ListNotations.

Local Open Scope string_scope.
Local Open Scope Z_scope.
Local Open Scope list_scope.

(** ** Scalar types of the OpenGL headers *)

Definition GLuint := Z.
Definition GLint := Z.
Definition GLenum := Z.
Definition GLsizei := Z.
Definition GLbitfield := Z.
Definition GLboolean := Z.
Definition GLintptr := Z.
Definition GLsizeiptr := Z.
Definition size_t := Z.

(** [void*]: an address, [0] for [nullptr]. *)
Definition pointer := Z.
Definition nullptr : pointer := 0.

(** [const char*]: [None] is the null pointer, [Some s] points to the
    NUL-terminated text [s]. *)
Definition c_str := option string.

(** Integer conversions written in the source.  [(GLsizei)x] converts a
    [size_t] to a 32-bit [int]; [(size_t)n] converts an [int] to a 64-bit
    unsigned; [(GLintptr)] and [(GLsizeiptr)] convert a [size_t] to a
    64-bit signed integer. *)
Definition to_GLsizei (x : Z) : GLsizei := (x + 2 ^ 31) mod 2 ^ 32 - 2 ^ 31.
Definition to_size_t (x : Z) : size_t := x mod 2 ^ 64.
Definition to_GLsizeiptr (x : Z) : GLsizeiptr := (x + 2 ^ 63) mod 2 ^ 64 - 2 ^ 63.
Definition to_GLintptr (x : Z) : GLintptr := (x + 2 ^ 63) mod 2 ^ 64 - 2 ^ 63.

(** [std::string_view::size()] *)
Definition size (name : string) : Z := Z.of_nat (String.length name).

(** Range of a 32-bit [int], the type of [GLint] and [GLsizei]. *)
Definition is_int (n : Z) : Prop := - 2 ^ 31 <= n < 2 ^ 31.

(** ** Enumerants (values of the Khronos [glcorearb.h] header) *)

Definition GL_FALSE : Z := 0.
Definition GL_TEXTURE : GLenum := 0x1702.
Definition GL_VERTEX_ARRAY : GLenum := 0x8074.
Definition GL_BUFFER : GLenum := 0x82E0.
Definition GL_SHADER : GLenum := 0x82E1.
Definition GL_PROGRAM : GLenum := 0x82E2.
Definition GL_FRAMEBUFFER : GLenum := 0x8D40.
Definition GL_FRAMEBUFFER_COMPLETE : GLenum := 0x8CD5.
Definition GL_COMPILE_STATUS : GLenum := 0x8B81.
Definition GL_LINK_STATUS : GLenum := 0x8B82.
Definition GL_INFO_LOG_LENGTH : GLenum := 0x8B84.
Definition GL_DEBUG_OUTPUT : GLenum := 0x92E0.
Definition GL_ARRAY_BUFFER : GLenum := 0x8892.
Definition GL_TEXTURE_2D : GLenum := 0x0DE1.
Definition GL_RGBA8 : GLenum := 0x8058.
Definition GL_VERTEX_SHADER : GLenum := 0x8B31.
Definition GL_READ_WRITE : GLenum := 0x88BA.
Definition GL_READ_ONLY : GLenum := 0x88B8.

Definition GL_DEBUG_SOURCE_API : GLenum := 0x8246.
Definition GL_DEBUG_SOURCE_WINDOW_SYSTEM : GLenum := 0x8247.
Definition GL_DEBUG_SOURCE_SHADER_COMPILER : GLenum := 0x8248.
Definition GL_DEBUG_SOURCE_THIRD_PARTY : GLenum := 0x8249.
Definition GL_DEBUG_SOURCE_APPLICATION : GLenum := 0x824A.
Definition GL_DEBUG_SOURCE_OTHER : GLenum := 0x824B.

Definition GL_DEBUG_TYPE_ERROR : GLenum := 0x824C.
Definition GL_DEBUG_TYPE_DEPRECATED_BEHAVIOR : GLenum := 0x824D.
Definition GL_DEBUG_TYPE_UNDEFINED_BEHAVIOR : GLenum := 0x824E.
Definition GL_DEBUG_TYPE_PORTABILITY : GLenum := 0x824F.
Definition GL_DEBUG_TYPE_PERFORMANCE : GLenum := 0x8250.
Definition GL_DEBUG_TYPE_OTHER : GLenum := 0x8251.
Definition GL_DEBUG_TYPE_MARKER : GLenum := 0x8268.

Definition GL_DEBUG_SEVERITY_HIGH : GLenum := 0x9146.
Definition GL_DEBUG_SEVERITY_MEDIUM : GLenum := 0x9147.
Definition GL_DEBUG_SEVERITY_LOW : GLenum := 0x9148.
Definition GL_DEBUG_SEVERITY_NOTIFICATION : GLenum := 0x826B.

(** ** Calls that leave the wrapper layer *)

(** One argument of a [printf]-family call. *)
Inductive PrintfArg : Type :=
| arg_str (s : c_str)
| arg_int (n : Z).

Inductive FILE : Type := stdout | stderr.

(** The function handed to [glDebugMessageCallback].  The source installs
    one lambda only, the one embedded as [callback] below. *)
Inductive DebugProc : Type := stderr_callback.

(** What a callee hands back: nothing, an object name, an integer written
    through an out-pointer or returned, a text written into a caller's
    buffer, an address. *)
Inductive Answer : Type := AVoid | AName | AInt | AText | AAddress.

Definition answer (a : Answer) : Type :=
  match a with
  | AVoid => unit
  | AName => GLuint
  | AInt => Z
  | AText => string
  | AAddress => pointer
  end.

(** The calls of the source, with the arguments as the source passes them.
    Out-parameters are not arguments here: what the callee writes through
    them is the call's answer.  The [glGen*] and [glDelete*] calls are
    always issued for one name ([n = 1]). *)
Inductive Call : Type :=
| glGenVertexArrays (n : GLsizei)
| glBindVertexArray (array : GLuint)
| glDeleteVertexArrays (n : GLsizei) (array : GLuint)
| glObjectLabel (identifier : GLenum) (name : GLuint) (length : GLsizei) (label : string)
| glGenBuffers (n : GLsizei)
| glBindBuffer (target : GLenum) (buffer : GLuint)
| glDeleteBuffers (n : GLsizei) (buffer : GLuint)
| glBindBufferBase (target : GLenum) (index : GLuint) (buffer : GLuint)
| glBindBufferRange (target : GLenum) (index : GLuint) (buffer : GLuint)
    (offset : GLintptr) (sz : GLsizeiptr)
| glBufferStorage (target : GLenum) (sz : GLsizeiptr) (data : pointer) (flags : GLbitfield)
| glBufferData (target : GLenum) (sz : GLsizeiptr) (data : pointer) (usage : GLenum)
| glBufferSubData (target : GLenum) (offset : GLintptr) (sz : GLsizeiptr) (data : pointer)
| glMapBuffer (target : GLenum) (access : GLenum)
| glMapBufferRange (target : GLenum) (offset : GLintptr) (length : GLsizeiptr)
    (access : GLbitfield)
| glUnmapBuffer (target : GLenum)
| glGenTextures (n : GLsizei)
| glBindTexture (target : GLenum) (texture : GLuint)
| glDeleteTextures (n : GLsizei) (texture : GLuint)
| glTexStorage1D (target : GLenum) (levels : GLsizei) (internalformat : GLenum)
    (width : GLsizei)
| glTexStorage2D (target : GLenum) (levels : GLsizei) (internalformat : GLenum)
    (width height : GLsizei)
| glTexStorage3D (target : GLenum) (levels : GLsizei) (internalformat : GLenum)
    (width height depth : GLsizei)
| glTexSubImage2D (target : GLenum) (level xoffset yoffset : GLint)
    (width height : GLsizei) (format type : GLenum) (data : pointer)
| glGenerateMipmap (target : GLenum)
| glGetTexParameteriv (target : GLenum) (pname : GLenum)
| glTexParameteri (target : GLenum) (pname : GLenum) (param : GLint)
| glGenFramebuffers (n : GLsizei)
| glBindFramebuffer (target : GLenum) (framebuffer : GLuint)
| glDeleteFramebuffers (n : GLsizei) (framebuffer : GLuint)
| glFramebufferTexture (target : GLenum) (attachment : GLenum) (texture : GLuint)
    (level : GLint)
| glCheckFramebufferStatus (target : GLenum)
| glCreateShader (type : GLenum)
| glShaderSource (shader : GLuint) (count : GLsizei) (code : c_str) (length : pointer)
| glCompileShader (shader : GLuint)
| glGetShaderiv (shader : GLuint) (pname : GLenum)
| glGetShaderInfoLog (shader : GLuint) (bufSize : GLsizei) (length : pointer)
| glDeleteShader (shader : GLuint)
| glCreateProgram
| glAttachShader (program shader : GLuint)
| glDetachShader (program shader : GLuint)
| glLinkProgram (program : GLuint)
| glValidateProgram (program : GLuint)
| glGetProgramiv (program : GLuint) (pname : GLenum)
| glGetProgramInfoLog (program : GLuint) (bufSize : GLsizei) (length : pointer)
| glUseProgram (program : GLuint)
| glDeleteProgram (program : GLuint)
| glEnable (cap : GLenum)
| glDebugMessageCallback (callback : DebugProc) (userParam : pointer)
| glPushDebugGroup (source : GLenum) (id : GLuint) (length : GLsizei) (message : c_str)
| glPopDebugGroup
| printf (format : string) (args : list PrintfArg)
| fprintf (stream : FILE) (format : string) (args : list PrintfArg)
| new_char_array (n : size_t).

Definition answers (c : Call) : Answer :=
  match c with
  | glGenVertexArrays _ | glGenBuffers _ | glGenTextures _ | glGenFramebuffers _
  | glCreateShader _ | glCreateProgram => AName
  | glGetTexParameteriv _ _ | glGetShaderiv _ _ | glGetProgramiv _ _
  | glCheckFramebufferStatus _ | glUnmapBuffer _
  | printf _ _ | fprintf _ _ _ => AInt
  | glGetShaderInfoLog _ _ _ | glGetProgramInfoLog _ _ _ => AText
  | glMapBuffer _ _ | glMapBufferRange _ _ _ _ => AAddress
  | _ => AVoid
  end.

Definition resp (c : Call) : Type := answer (answers c).

(** A call that was issued, with the callee's answer. *)
Inductive Event : Type := Ev (c : Call) (r : resp c).

Definition call_of (e : Event) : Call := let 'Ev c _ := e in c.

(** The world outside the wrappers: it answers each call, and its answer
    may depend on everything that happened before. *)
Definition Driver : Type := list Event -> forall c : Call, resp c.

(** ** Methods as trees of calls *)

Inductive Prog (A : Type) : Type :=
| Ret (a : A)
| Do (c : Call) (k : resp c -> Prog A)
| Exit (status : Z).

Arguments Ret {A} a.
Arguments Do {A} c k.
Arguments Exit {A} status.

Fixpoint bind {A B : Type} (p : Prog A) (f : A -> Prog B) : Prog B :=
  match p with
  | Ret a => f a
  | Do c k => Do c (fun r => bind (k r) f)
  | Exit s => Exit s
  end.

Definition call (c : Call) : Prog (resp c) := Do c Ret.

(** [exit(status)] does not return. *)
Definition exit (status : Z) : Prog unit := Exit status.

Declare Scope prog_scope.
Delimit Scope prog_scope with prog.
Notation "x <- p ;; q" := (bind p (fun x => q))
  (at level 61, p at next level, right associativity) : prog_scope.
Notation "p ;; q" := (bind p (fun _ => q))
  (at level 61, right associativity) : prog_scope.
Local Open Scope prog_scope.

(** A range-based [for] over a list, the body run for its calls only. *)
Fixpoint for_each {X : Type} (xs : list X) (body : X -> Prog unit) : Prog unit :=
  match xs with
  | [] => Ret tt
  | x :: xs' => body x ;; for_each xs' body
  end.

(** How a method ended. *)
Inductive Outcome (A : Type) : Type :=
| Returned (a : A)
| Exited (status : Z).

Arguments Returned {A} a.
Arguments Exited {A} status.

(** [run d hist p]: the events [p] produces when it starts after the
    events [hist], and its outcome. *)
Fixpoint run {A : Type} (d : Driver) (hist : list Event) (p : Prog A)
  : list Event * Outcome A :=
  match p with
  | Ret a => ([], Returned a)
  | Exit s => ([], Exited s)
  | Do c k =>
      let r := d hist c in
      let '(t, o) := run d (hist ++ [Ev c r]) (k r) in
      (Ev c r :: t, o)
  end.

Definition trace {A : Type} (d : Driver) (hist : list Event) (p : Prog A) : list Event :=
  fst (run d hist p).

Definition outcome {A : Type} (d : Driver) (hist : list Event) (p : Prog A) : Outcome A :=
  snd (run d hist p).

(** ** [struct GLHandle]

    The base of every wrapper: the object name, [0] until the constructor
    of the derived struct stores the driver's name.  Each derived record
    below carries the inherited member as its own [handle] field, and
    [operator GLuint] is that field's projection. *)

Module GLHandle.
Record t : Type := { handle : GLuint }.
Definition GLHandle : t := {| handle := 0 |}.
Definition operator_GLuint (this : t) : GLuint := handle this.
End GLHandle.

(** ** [struct VAO] *)

Module VAO.
Record t : Type := { handle : GLuint }.

Definition VAO (name : string) : Prog t :=
  h <- call (glGenVertexArrays 1) ;;
  call (glBindVertexArray h) ;;
  call (glObjectLabel GL_VERTEX_ARRAY h (to_GLsizei (size name)) name) ;;
  Ret {| handle := h |}.

Definition destroy (this : t) : Prog unit :=
  call (glDeleteVertexArrays 1 (handle this)).

Definition bind (this : t) : Prog unit :=
  call (glBindVertexArray (handle this)).
End VAO.

(** ** [struct GLBuffer] *)

Module GLBuffer.
Record t : Type := { handle : GLuint; target : GLenum }.

Definition GLBuffer (target : GLenum) (name : string) : Prog t :=
  h <- call (glGenBuffers 1) ;;
  call (glBindBuffer target h) ;;
  call (glObjectLabel GL_BUFFER h (to_GLsizei (size name)) name) ;;
  Ret {| handle := h; target := target |}.

Definition destroy (this : t) : Prog unit :=
  call (glDeleteBuffers 1 (handle this)).

Definition bind (this : t) : Prog unit :=
  call (glBindBuffer (target this) (handle this)).

Definition unbind (this : t) : Prog unit :=
  call (glBindBuffer (target this) 0).

Definition bindBase (this : t) (index : GLuint) : Prog unit :=
  call (glBindBufferBase (target this) index (handle this)).

Definition bindRange (this : t) (index : GLuint) (offset sz : size_t) : Prog unit :=
  call (glBindBufferRange (target this) index (handle this)
          (to_GLintptr offset) (to_GLsizeiptr sz)).

Definition setStorage (this : t) (sz : size_t) (data : pointer) (flags : GLbitfield)
  : Prog unit :=
  call (glBufferStorage (target this) (to_GLsizeiptr sz) data flags).

Definition setData (this : t) (sz : size_t) (data : pointer) (usage : GLenum)
  : Prog unit :=
  call (glBufferData (target this) (to_GLsizeiptr sz) data usage).

Definition setSubData (this : t) (offset sz : size_t) (data : pointer) : Prog unit :=
  call (glBufferSubData (target this) (to_GLintptr offset) (to_GLsizeiptr sz) data).

(** The address [glMapBuffer] returns is dropped: the method is [void]
    and stores nothing. *)
Definition map (this : t) (access : GLenum) : Prog unit :=
  _ <- call (glMapBuffer (target this) access) ;;
  Ret tt.

Definition mapRange (this : t) (offset length : size_t) (access : GLbitfield)
  : Prog unit :=
  _ <- call (glMapBufferRange (target this) (to_GLintptr offset)
               (to_GLsizeiptr length) access) ;;
  Ret tt.

Definition unmap (this : t) (access : GLenum) : Prog unit :=
  _ <- call (glUnmapBuffer (target this)) ;;
  Ret tt.
End GLBuffer.

(** ** [struct GLTexture] *)

Module GLTexture.
Record t : Type := { handle : GLuint; target : GLenum }.

Definition GLTexture (target : GLenum) (name : string) (levels : GLsizei)
    (internalformat : GLenum) (width height depth : GLsizei) : Prog t :=
  h <- call (glGenTextures 1) ;;
  call (glBindTexture target h) ;;
  call (glObjectLabel GL_TEXTURE h (to_GLsizei (size name)) name) ;;
  (if negb (depth =? 1) then
     call (glTexStorage3D target levels internalformat width height depth)
   else if negb (height =? 1) then
     call (glTexStorage2D target levels internalformat width height)
   else
     call (glTexStorage1D target levels internalformat width)) ;;
  Ret {| handle := h; target := target |}.

Definition destroy (this : t) : Prog unit :=
  call (glDeleteTextures 1 (handle this)).

Definition bind (this : t) : Prog unit :=
  call (glBindTexture (target this) (handle this)).

Definition setSubData (this : t) (level xoffset yoffset : GLint)
    (width height : GLsizei) (format type : GLenum) (data : pointer) : Prog unit :=
  call (glTexSubImage2D (target this) level xoffset yoffset width height format type data).

Definition generateMipmaps (this : t) : Prog unit :=
  call (glGenerateMipmap (target this)).

Definition set (this : t) (name : GLenum) (value : GLint) : Prog unit :=
  call (glTexParameteri (target this) name value).
End GLTexture.

(** ** [struct GLFBO]

    [target] is [mutable]: the [const] methods [bind] and [unbind] assign
    it, so they return the object as they leave it. *)

Module GLFBO.
Record t : Type := { handle : GLuint; target : GLenum }.

Definition GLFBO (target : GLenum) (name : string) (levels : GLsizei)
    (internalformat : GLenum) (width height depth : GLsizei) : Prog t :=
  h <- call (glGenFramebuffers 1) ;;
  call (glBindFramebuffer target h) ;;
  call (glObjectLabel GL_FRAMEBUFFER h (to_GLsizei (size name)) name) ;;
  (if negb (depth =? 1) then
     call (glTexStorage3D target levels internalformat width height depth)
   else if negb (height =? 1) then
     call (glTexStorage2D target levels internalformat width height)
   else
     call (glTexStorage1D target levels internalformat width)) ;;
  Ret {| handle := h; target := target |}.

Definition destroy (this : t) : Prog unit :=
  call (glDeleteFramebuffers 1 (handle this)).

Definition bind (this : t) (tgt : GLenum) : Prog t :=
  let this := {| handle := handle this; target := tgt |} in
  call (glBindFramebuffer (target this) (handle this)) ;;
  Ret this.

Definition unbind (this : t) : Prog t :=
  call (glBindFramebuffer (target this) 0) ;;
  Ret {| handle := handle this; target := 0 |}.

Definition attach (this : t) (attachment : GLenum) (texture : GLuint) (level : Z)
  : Prog unit :=
  call (glFramebufferTexture (target this) attachment texture level).

Definition detach (this : t) (attachment : GLenum) : Prog unit :=
  attach this attachment 0 0.

Definition status (this : t) : Prog GLenum :=
  call (glCheckFramebufferStatus (target this)).

Definition complete (this : t) : Prog bool :=
  s <- status this ;;
  Ret (s =? GL_FRAMEBUFFER_COMPLETE).
End GLFBO.

(** The line feed the source writes as a backslash-n escape. *)
Definition LF : string := String (ascii_of_nat 10) EmptyString.

(** ["LOG: %s\n"] *)
Definition LOG_format : string := ("LOG: %s" ++ LF)%string.

(** ** [struct GLSLShader] *)

Module GLSLShader.
Record t : Type := { handle : GLuint }.

Definition compile (this : t) : Prog bool :=
  call (glCompileShader (handle this)) ;;
  status <- call (glGetShaderiv (handle this) GL_COMPILE_STATUS) ;;
  Ret (negb (status =? GL_FALSE)).

(** [std::unique_ptr<char[]>] is [None] when empty, [Some s] when it
    owns a buffer holding the text [s]. *)
Definition getLog (this : t) : Prog (option string) :=
  logLength <- call (glGetShaderiv (handle this) GL_INFO_LOG_LENGTH) ;;
  if 0 <? logLength then
    call (new_char_array (to_size_t logLength)) ;;
    log <- call (glGetShaderInfoLog (handle this) logLength nullptr) ;;
    Ret (Some (log : string))
  else
    Ret None.

Definition GLSLShader (type : GLenum) (name : string) (code : c_str) : Prog t :=
  h <- call (glCreateShader type) ;;
  let this := {| handle := h |} in
  call (glObjectLabel GL_SHADER h (to_GLsizei (size name)) name) ;;
  call (glShaderSource h 1 code nullptr) ;;
  ok <- compile this ;;
  (if negb ok then
     log <- getLog this ;;
     _ <- call (printf LOG_format [arg_str log]) ;;
     Ret tt
   else
     Ret tt) ;;
  Ret this.

Definition destroy (this : t) : Prog unit :=
  call (glDeleteShader (handle this)).
End GLSLShader.

(** ** [struct GLSLProgram] *)

Module GLSLProgram.
Record t : Type := { handle : GLuint }.

Definition use (this : t) : Prog unit :=
  call (glUseProgram (handle this)).

Definition link (this : t) : Prog bool :=
  call (glLinkProgram (handle this)) ;;
  call (glValidateProgram (handle this)) ;;
  status <- call (glGetProgramiv (handle this) GL_LINK_STATUS) ;;
  Ret (negb (status =? 0)).

Definition getLog (this : t) : Prog (option string) :=
  logLength <- call (glGetProgramiv (handle this) GL_INFO_LOG_LENGTH) ;;
  if 0 <? logLength then
    call (new_char_array (to_size_t logLength)) ;;
    log <- call (glGetProgramInfoLog (handle this) logLength nullptr) ;;
    Ret (Some (log : string))
  else
    Ret None.

Definition GLSLProgram (name : string) (shaders : list GLSLShader.t) : Prog t :=
  h <- call glCreateProgram ;;
  let this := {| handle := h |} in
  call (glObjectLabel GL_PROGRAM h (to_GLsizei (size name)) name) ;;
  for_each shaders (fun shader => call (glAttachShader h (GLSLShader.handle shader))) ;;
  ok <- link this ;;
  (if negb ok then
     log <- getLog this ;;
     _ <- call (printf LOG_format [arg_str log]) ;;
     Ret tt
   else
     use this) ;;
  for_each shaders (fun shader => call (glDetachShader h (GLSLShader.handle shader))) ;;
  Ret this.

Definition destroy (this : t) : Prog unit :=
  call (glDeleteProgram (handle this)).
End GLSLProgram.

(** ** Debug string tables *)

Definition debugSourceString (source : GLenum) : c_str :=
  if source =? GL_DEBUG_SOURCE_API then Some "API"
  else if source =? GL_DEBUG_SOURCE_WINDOW_SYSTEM then Some "Window System"
  else if source =? GL_DEBUG_SOURCE_SHADER_COMPILER then Some "Shader Compiler"
  else if source =? GL_DEBUG_SOURCE_THIRD_PARTY then Some "Third Party"
  else if source =? GL_DEBUG_SOURCE_APPLICATION then Some "Application"
  else if source =? GL_DEBUG_SOURCE_OTHER then Some "Other"
  else Some "UNKNOWN".

Definition debugTypeString (type : GLenum) : c_str :=
  if type =? GL_DEBUG_TYPE_ERROR then Some "Error"
  else if type =? GL_DEBUG_TYPE_DEPRECATED_BEHAVIOR then Some "Deprecated"
  else if type =? GL_DEBUG_TYPE_UNDEFINED_BEHAVIOR then Some "Undefined"
  else if type =? GL_DEBUG_TYPE_PORTABILITY then Some "Portability"
  else if type =? GL_DEBUG_TYPE_PERFORMANCE then Some "Performance"
  else if type =? GL_DEBUG_TYPE_OTHER then Some "Other"
  else if type =? GL_DEBUG_TYPE_MARKER then Some "Marker"
  else Some "UNKNOWN".

Definition debugSeverityString (severity : GLenum) : c_str :=
  if severity =? GL_DEBUG_SEVERITY_HIGH then Some "High"
  else if severity =? GL_DEBUG_SEVERITY_MEDIUM then Some "Medium"
  else if severity =? GL_DEBUG_SEVERITY_LOW then Some "Low"
  else if severity =? GL_DEBUG_SEVERITY_NOTIFICATION then Some "Notification"
  else Some "UNKNOWN".

(** ** [setupStderrDebugCallback] *)

(** ["[%s] %s (%s): %.*s\n"] *)
Definition message_format : string := ("[%s] %s (%s): %.*s" ++ LF)%string.

(** The lambda registered with the driver. *)
Definition callback (source type : GLenum) (id : GLuint) (severity : GLenum)
    (length : GLsizei) (message : c_str) (userParam : pointer) : Prog unit :=
  _ <- call (fprintf stderr message_format
               [arg_str (debugSourceString source);
                arg_str (debugTypeString type);
                arg_str (debugSeverityString severity);
                arg_int length; arg_str message]) ;;
  if (type =? GL_DEBUG_TYPE_ERROR) || (severity =? GL_DEBUG_SEVERITY_HIGH) then
    exit 1
  else
    Ret tt.

Definition setupStderrDebugCallback : Prog unit :=
  call (glEnable GL_DEBUG_OUTPUT) ;;
  call (glDebugMessageCallback stderr_callback nullptr).

(** ** [struct GLScopedDebugMarker]

    The struct has two bodies, chosen by the preprocessor: [NDEBUG] is
    [true] for a build that defines the macro. *)

Module GLScopedDebugMarker.
Definition t : Type := unit.

Definition GLScopedDebugMarker (NDEBUG : bool) (msg : c_str) : Prog t :=
  if negb NDEBUG then
    call (glPushDebugGroup GL_DEBUG_SOURCE_APPLICATION 0 (-1) msg)
  else
    Ret tt.

Definition destroy (NDEBUG : bool) (this : t) : Prog unit :=
  if negb NDEBUG then call glPopDebugGroup else Ret tt.

(** A block that declares a marker first: the marker is constructed on
    entry and destroyed when the block's statements have completed. *)
Definition scope {A : Type} (NDEBUG : bool) (msg : c_str) (body : Prog A) : Prog A :=
  marker <- GLScopedDebugMarker NDEBUG msg ;;
  result <- body ;;
  destroy NDEBUG marker ;;
  Ret result.
End GLScopedDebugMarker.

(** ** What a [printf]-family call writes

    The conversions the source uses: [%s] writes the text its argument
    points to, [%.*s] takes an [int] precision and then a text, and writes
    at most that many characters of it (all of it when the precision is
    negative).  [None] where the C standard leaves the behaviour undefined
    (a null or missing argument) or for a directive the source never uses. *)

Definition precision (p : Z) (s : string) : string :=
  if p <? 0 then s else substring 0 (Z.to_nat p) s.

Fixpoint formatted (format : string) (args : list PrintfArg) : option string :=
  match format with
  | EmptyString => Some EmptyString
  | String c rest =>
      if negb (Ascii.eqb c "%") then option_map (String c) (formatted rest args)
      else
        match rest with
        | String c1 rest1 =>
            if Ascii.eqb c1 "s" then
              match args with
              | arg_str (Some s) :: args' =>
                  option_map (String.append s) (formatted rest1 args')
              | _ => None
              end
            else
              match rest1 with
              | String c2 (String c3 rest3) =>
                  if Ascii.eqb c1 "." && Ascii.eqb c2 "*" && Ascii.eqb c3 "s" then
                    match args with
                    | arg_int p :: arg_str (Some s) :: args' =>
                        option_map (String.append (precision p s)) (formatted rest3 args')
                    | _ => None
                    end
                  else None
              | _ => None
              end
        | EmptyString => None
        end
  end.

(** The text an event puts on a stream, if the event is such a write. *)
Definition text_written (stream : FILE) (e : Event) : option string :=
  match call_of e, stream with
  | printf format args, stdout => formatted format args
  | fprintf stderr format args, stderr => formatted format args
  | fprintf stdout format args, stdout => formatted format args
  | _, _ => None
  end.

(** ** Reading a trace *)

Definition calls (t : list Event) : list Call := List.map call_of t.

(** The call binds an object to a target or activates a program. *)
Definition binds_or_activates (c : Call) : bool :=
  match c with
  | glBindVertexArray _ | glBindBuffer _ _ | glBindTexture _ _
  | glBindFramebuffer _ _ | glUseProgram _
  | glBindBufferBase _ _ _ | glBindBufferRange _ _ _ _ _ => true
  | _ => false
  end.

(** The call reserves backing store for an object. *)
Definition allocates_storage (c : Call) : bool :=
  match c with
  | glTexStorage1D _ _ _ _ | glTexStorage2D _ _ _ _ _ | glTexStorage3D _ _ _ _ _ _
  | glBufferStorage _ _ _ _ | glBufferData _ _ _ _ => true
  | _ => false
  end.

(** The call copies an info log out of the driver. *)
Definition fetches_log (c : Call) : bool :=
  match c with
  | glGetShaderInfoLog _ _ _ | glGetProgramInfoLog _ _ _ => true
  | _ => false
  end.

(** Sizes of the arrays taken from the heap, in order. *)
Definition heap_allocations (t : list Event) : list size_t :=
  flat_map (fun c => match c with new_char_array n => [n] | _ => [] end) (calls t).

Definition attach_events (h : GLuint) (shaders : list GLSLShader.t) : list Event :=
  List.map (fun s => Ev (glAttachShader h (GLSLShader.handle s)) tt) shaders.

Definition detach_events (h : GLuint) (shaders : list GLSLShader.t) : list Event :=
  List.map (fun s => Ev (glDetachShader h (GLSLShader.handle s)) tt) shaders.

(** What [GLSLProgram]'s constructor issues up to and including the link
    and the validation, for the program name [h]. *)
Definition program_setup (h : GLuint) (name : string) (shaders : list GLSLShader.t)
  : list Event :=
  [Ev glCreateProgram h;
   Ev (glObjectLabel GL_PROGRAM h (to_GLsizei (size name)) name) tt]
  ++ attach_events h shaders
  ++ [Ev (glLinkProgram h) tt; Ev (glValidateProgram h) tt].

(** ** Drivers to run the wrappers against *)

(** A driver that answers from four tables, whatever happened before. *)
Definition scripted (names : Call -> GLuint) (ints : Call -> Z)
    (texts : Call -> string) (addresses : Call -> pointer) : Driver :=
  fun _ c =>
    match answers c as a return answer a with
    | AVoid => tt
    | AName => names c
    | AInt => ints c
    | AText => texts c
    | AAddress => addresses c
    end.

(** Hands out the name [7]; every status and length it reports is [0], so
    compiling and linking fail and the info logs are empty. *)
Definition failing_driver : Driver :=
  scripted (fun _ => 7) (fun _ => 0) (fun _ => EmptyString) (fun _ => 4096).

(** Hands out the name [7]; compiling and linking succeed, and every info
    log is the five characters of ["oops"] and its terminator. *)
Definition working_driver : Driver :=
  scripted (fun _ => 7)
    (fun c =>
       match c with
       | glGetShaderiv _ pname | glGetProgramiv _ pname =>
           if pname =? GL_INFO_LOG_LENGTH then 5 else 1
       | _ => 0
       end)
    (fun _ => "oops") (fun _ => 4096).

(** Linking fails and leaves a log of five characters. *)
Definition link_error_driver : Driver :=
  scripted (fun _ => 7)
    (fun c =>
       match c with
       | glGetProgramiv _ pname => if pname =? GL_INFO_LOG_LENGTH then 5 else 0
       | glGetShaderiv _ pname => if pname =? GL_INFO_LOG_LENGTH then 0 else 1
       | _ => 0
       end)
    (fun _ => "oops") (fun _ => 4096).

(** ** The cases of the three [switch] statements, as tables *)

Definition source_labels : list (GLenum * string) :=
  [(GL_DEBUG_SOURCE_API, "API");
   (GL_DEBUG_SOURCE_WINDOW_SYSTEM, "Window System");
   (GL_DEBUG_SOURCE_SHADER_COMPILER, "Shader Compiler");
   (GL_DEBUG_SOURCE_THIRD_PARTY, "Third Party");
   (GL_DEBUG_SOURCE_APPLICATION, "Application");
   (GL_DEBUG_SOURCE_OTHER, "Other")].

Definition type_labels : list (GLenum * string) :=
  [(GL_DEBUG_TYPE_ERROR, "Error");
   (GL_DEBUG_TYPE_DEPRECATED_BEHAVIOR, "Deprecated");
   (GL_DEBUG_TYPE_UNDEFINED_BEHAVIOR, "Undefined");
   (GL_DEBUG_TYPE_PORTABILITY, "Portability");
   (GL_DEBUG_TYPE_PERFORMANCE, "Performance");
   (GL_DEBUG_TYPE_OTHER, "Other");
   (GL_DEBUG_TYPE_MARKER, "Marker")].

Definition severity_labels : list (GLenum * string) :=
  [(GL_DEBUG_SEVERITY_HIGH, "High");
   (GL_DEBUG_SEVERITY_MEDIUM, "Medium");
   (GL_DEBUG_SEVERITY_LOW, "Low");
   (GL_DEBUG_SEVERITY_NOTIFICATION, "Notification")].

(** Every row of [table] is a case of [f]. *)
Definition covers (f : GLenum -> c_str) (table : list (GLenum * string)) : Prop :=
  Forall (fun row => f (fst row) = Some (snd row)) table.

(** ** Further readings of a trace *)

(** The call releases an object name. *)
Definition is_deletion (c : Call) : bool :=
  match c with
  | glDeleteVertexArrays _ _ | glDeleteBuffers _ _ | glDeleteTextures _ _
  | glDeleteFramebuffers _ _ | glDeleteShader _ | glDeleteProgram _ => true
  | _ => false
  end.

Definition is_label (c : Call) : bool :=
  match c with
  | glObjectLabel _ _ _ _ => true
  | _ => false
  end.

(** The [target] argument of the calls that have one. *)
Definition target_argument (c : Call) : option GLenum :=
  match c with
  | glBindBuffer t _ | glBindBufferBase t _ _ | glBindBufferRange t _ _ _ _
  | glBufferStorage t _ _ _ | glBufferData t _ _ _ | glBufferSubData t _ _ _
  | glMapBuffer t _ | glMapBufferRange t _ _ _ | glUnmapBuffer t
  | glBindTexture t _ | glTexStorage1D t _ _ _ | glTexStorage2D t _ _ _ _
  | glTexStorage3D t _ _ _ _ _ | glTexSubImage2D t _ _ _ _ _ _ _ _
  | glGenerateMipmap t | glGetTexParameteriv t _ | glTexParameteri t _ _
  | glBindFramebuffer t _ | glFramebufferTexture t _ _ _
  | glCheckFramebufferStatus t => Some t
  | _ => None
  end.

(** Debug groups pushed and not popped by a list of calls. *)
Definition group_depth (cs : list Call) : Z :=
  fold_right
    (fun c n =>
       match c with
       | glPushDebugGroup _ _ _ _ => n + 1
       | glPopDebugGroup => n - 1
       | _ => n
       end)
    0 cs.

(** What the [printf] calls of a trace write to standard output, one entry
    per call: [None] for a call whose behaviour is undefined. *)
Definition stdout_writes (t : list Event) : list (option string) :=
  flat_map
    (fun c => match c with printf format args => [formatted format args] | _ => [] end)
    (calls t).

(** What [GLSLShader]'s constructor issues up to and including the
    compilation, for the shader name [h]. *)
Definition shader_setup (h : GLuint) (type : GLenum) (name : string) (code : c_str)
  : list Event :=
  [Ev (glCreateShader type) h;
   Ev (glObjectLabel GL_SHADER h (to_GLsizei (size name)) name) tt;
   Ev (glShaderSource h 1 code nullptr) tt;
   Ev (glCompileShader h) tt].

(** [(GLintptr)x] and [(GLsizeiptr)x] for [x] in the range of [size_t]. *)
Definition signed64 (x : Z) : Z := if x <? 2 ^ 63 then x else x - 2 ^ 64.

(** One call of a method of [GLBuffer], with its arguments. *)
Inductive BufferMethod : Type :=
| buffer_bind
| buffer_unbind
| buffer_bindBase (index : GLuint)
| buffer_bindRange (index : GLuint) (offset sz : size_t)
| buffer_setStorage (sz : size_t) (data : pointer) (flags : GLbitfield)
| buffer_setData (sz : size_t) (data : pointer) (usage : GLenum)
| buffer_setSubData (offset sz : size_t) (data : pointer)
| buffer_map (access : GLenum)
| buffer_mapRange (offset length : size_t) (access : GLbitfield)
| buffer_unmap (access : GLenum).

Definition buffer_invoke (this : GLBuffer.t) (m : BufferMethod) : Prog unit :=
  match m with
  | buffer_bind => GLBuffer.bind this
  | buffer_unbind => GLBuffer.unbind this
  | buffer_bindBase index => GLBuffer.bindBase this index
  | buffer_bindRange index offset sz => GLBuffer.bindRange this index offset sz
  | buffer_setStorage sz data flags => GLBuffer.setStorage this sz data flags
  | buffer_setData sz data usage => GLBuffer.setData this sz data usage
  | buffer_setSubData offset sz data => GLBuffer.setSubData this offset sz data
  | buffer_map access => GLBuffer.map this access
  | buffer_mapRange offset length access => GLBuffer.mapRange this offset length access
  | buffer_unmap access => GLBuffer.unmap this access
  end.

(** One call of a method of [GLTexture] (the integer [set]; [get] and the
    [GLfloat] overload of [set] are not embedded). *)
Inductive TextureMethod : Type :=
| texture_bind
| texture_setSubData (level xoffset yoffset : GLint) (width height : GLsizei)
    (format type : GLenum) (data : pointer)
| texture_generateMipmaps
| texture_set (name : GLenum) (value : GLint).

Definition texture_invoke (this : GLTexture.t) (m : TextureMethod) : Prog unit :=
  match m with
  | texture_bind => GLTexture.bind this
  | texture_setSubData level xoffset yoffset width height format type data =>
      GLTexture.setSubData this level xoffset yoffset width height format type data
  | texture_generateMipmaps => GLTexture.generateMipmaps this
  | texture_set name value => GLTexture.set this name value
  end.

(** A predicate that holds of none of the calls a constructor of
    [GLSLShader] or [GLSLProgram] issues after the label. *)
Definition misses_compile_and_link (P : Call -> bool) : Prop :=
  (forall h n s, P (glShaderSource h n s nullptr) = false)
  /\ (forall h, P (glCompileShader h) = false)
  /\ (forall h pname, P (glGetShaderiv h pname) = false)
  /\ (forall h n, P (glGetShaderInfoLog h n nullptr) = false)
  /\ (forall h s, P (glAttachShader h s) = false)
  /\ (forall h s, P (glDetachShader h s) = false)
  /\ (forall h, P (glLinkProgram h) = false)
  /\ (forall h, P (glValidateProgram h) = false)
  /\ (forall h pname, P (glGetProgramiv h pname) = false)
  /\ (forall h n, P (glGetProgramInfoLog h n nullptr) = false)
  /\ (forall h, P (glUseProgram h) = false)
  /\ (forall n, P (new_char_array n) = false)
  /\ (forall f a, P (printf f a) = false).

(** Buffer sizes announced to the driver by the info-log fetches, in
    order. *)
Definition fetch_sizes (t : list Event) : list GLsizei :=
  flat_map
    (fun c =>
       match c with
       | glGetShaderInfoLog _ bufSize _ | glGetProgramInfoLog _ bufSize _ => [bufSize]
       | _ => []
       end)
    (calls t).

(** * Properties *)

(** ** Running sequenced code *)

Lemma run_eta {A : Type} (d : Driver) (hist : list Event) (p : Prog A) :
  run d hist p = (trace d hist p, outcome d hist p).
Proof. unfold trace, outcome. destruct (run d hist p); reflexivity. Qed.

Lemma run_bind {A B : Type} (d : Driver) (p : Prog A) (f : A -> Prog B) :
  forall hist,
    run d hist (bind p f) =
      match outcome d hist p with
      | Returned a =>
          (trace d hist p ++ trace d (hist ++ trace d hist p) (f a),
           outcome d (hist ++ trace d hist p) (f a))
      | Exited s => (trace d hist p, Exited s)
      end.
Proof.
  induction p as [a | c k IH | s]; intro hist.
  - unfold trace, outcome. simpl. rewrite app_nil_r.
    destruct (run d hist (f a)); reflexivity.
  - simpl. rewrite IH. unfold trace, outcome. simpl.
    destruct (run d (hist ++ [Ev c (d hist c)]) (k (d hist c))) as [t o]. simpl.
    destruct o; [rewrite <- app_assoc|]; reflexivity.
  - reflexivity.
Qed.

Lemma run_call (d : Driver) (hist : list Event) (c : Call) :
  run d hist (call c) = ([Ev c (d hist c)], Returned (d hist c)).
Proof. reflexivity. Qed.

(** Sequencing, when the first part returns. *)
Lemma run_then {A B : Type} (d : Driver) (hist : list Event) (p : Prog A)
    (f : A -> Prog B) (t1 : list Event) (a : A) (t2 : list Event) (o : Outcome B) :
  run d hist p = (t1, Returned a) ->
  run d (hist ++ t1) (f a) = (t2, o) ->
  run d hist (bind p f) = (t1 ++ t2, o).
Proof.
  intros H1 H2. rewrite run_bind. unfold trace, outcome. rewrite H1. simpl.
  rewrite H2. reflexivity.
Qed.

Lemma trace_bind_returned {A B : Type} (d : Driver) (hist : list Event)
    (p : Prog A) (f : A -> Prog B) (a : A) :
  outcome d hist p = Returned a ->
  trace d hist (bind p f) = trace d hist p ++ trace d (hist ++ trace d hist p) (f a).
Proof. intro H. unfold trace at 1. rewrite run_bind, H. reflexivity. Qed.

Lemma outcome_bind_returned {A B : Type} (d : Driver) (hist : list Event)
    (p : Prog A) (f : A -> Prog B) (a : A) :
  outcome d hist p = Returned a ->
  outcome d hist (bind p f) = outcome d (hist ++ trace d hist p) (f a).
Proof. intro H. unfold outcome at 1. rewrite run_bind, H. reflexivity. Qed.

(** A loop whose body is one call that answers nothing issues one event
    per element, in the order of the list. *)
Lemma run_for_each {X : Type} (d : Driver) (body : X -> Prog unit) (ev : X -> Event) :
  (forall hist x, run d hist (body x) = ([ev x], Returned tt)) ->
  forall xs hist, run d hist (for_each xs body) = (List.map ev xs, Returned tt).
Proof.
  intros Hbody xs. induction xs as [| x xs IH]; intro hist; simpl.
  - reflexivity.
  - rewrite run_bind. unfold trace, outcome. rewrite Hbody. simpl.
    rewrite IH. reflexivity.
Qed.

Lemma run_attach_all (d : Driver) (h : GLuint) (shaders : list GLSLShader.t) hist :
  run d hist
    (for_each shaders (fun shader => call (glAttachShader h (GLSLShader.handle shader))))
  = (attach_events h shaders, Returned tt).
Proof.
  apply (run_for_each d _ (fun s => Ev (glAttachShader h (GLSLShader.handle s)) tt)).
  intros hist' x. simpl. destruct (d hist' (glAttachShader h (GLSLShader.handle x))).
  reflexivity.
Qed.

Lemma run_detach_all (d : Driver) (h : GLuint) (shaders : list GLSLShader.t) hist :
  run d hist
    (for_each shaders (fun shader => call (glDetachShader h (GLSLShader.handle shader))))
  = (detach_events h shaders, Returned tt).
Proof.
  apply (run_for_each d _ (fun s => Ev (glDetachShader h (GLSLShader.handle s)) tt)).
  intros hist' x. simpl. destruct (d hist' (glDetachShader h (GLSLShader.handle x))).
  reflexivity.
Qed.

(** An answer of type [unit] is [tt]. *)
Lemma void_answer (u : unit) : u = tt.
Proof. destruct u; reflexivity. Qed.

(** Replaces by [tt] every answer of driver [d] to a call that answers
    nothing. *)
Ltac void_answers d :=
  repeat match goal with
    | |- context [d ?h ?c] =>
        lazymatch eval cbv in (answers c) with AVoid => idtac end;
        rewrite (void_answer (d h c))
    end.

(** ** The info logs *)

Lemma run_shader_getLog (d : Driver) (hist : list Event) (this : GLSLShader.t) :
  let h := GLSLShader.handle this in
  let query := glGetShaderiv h GL_INFO_LOG_LENGTH in
  let n := d hist query in
  let alloc := Ev (new_char_array (to_size_t n)) tt in
  let fetch := glGetShaderInfoLog h n nullptr in
  let log := d (hist ++ [Ev query n; alloc]) fetch in
  run d hist (GLSLShader.getLog this) =
    if 0 <? n
    then ([Ev query n; alloc; Ev fetch log], Returned (Some log))
    else ([Ev query n], Returned None).
Proof.
  simpl. destruct (0 <? _) eqn:E; simpl.
  - rewrite (void_answer (d _ (new_char_array _))), <- app_assoc. reflexivity.
  - reflexivity.
Qed.

Lemma run_program_getLog (d : Driver) (hist : list Event) (this : GLSLProgram.t) :
  let h := GLSLProgram.handle this in
  let query := glGetProgramiv h GL_INFO_LOG_LENGTH in
  let n := d hist query in
  let alloc := Ev (new_char_array (to_size_t n)) tt in
  let fetch := glGetProgramInfoLog h n nullptr in
  let log := d (hist ++ [Ev query n; alloc]) fetch in
  run d hist (GLSLProgram.getLog this) =
    if 0 <? n
    then ([Ev query n; alloc; Ev fetch log], Returned (Some log))
    else ([Ev query n], Returned None).
Proof.
  simpl. destruct (0 <? _) eqn:E; simpl.
  - rewrite (void_answer (d _ (new_char_array _))), <- app_assoc. reflexivity.
  - reflexivity.
Qed.

(** [getLog] always returns to its caller. *)
Lemma program_getLog_returns (d : Driver) (hist : list Event) (this : GLSLProgram.t) :
  exists log, outcome d hist (GLSLProgram.getLog this) = Returned log.
Proof.
  unfold outcome. rewrite run_program_getLog. simpl.
  destruct (0 <? _); simpl; eauto.
Qed.

Lemma shader_getLog_returns (d : Driver) (hist : list Event) (this : GLSLShader.t) :
  exists log, outcome d hist (GLSLShader.getLog this) = Returned log.
Proof.
  unfold outcome. rewrite run_shader_getLog. simpl.
  destruct (0 <? _); simpl; eauto.
Qed.

(** ** Construction of a program *)

Lemma run_link (d : Driver) (hist : list Event) (this : GLSLProgram.t) :
  let h := GLSLProgram.handle this in
  let status := d (hist ++ [Ev (glLinkProgram h) tt; Ev (glValidateProgram h) tt])
                  (glGetProgramiv h GL_LINK_STATUS) in
  run d hist (GLSLProgram.link this) =
    ([Ev (glLinkProgram h) tt; Ev (glValidateProgram h) tt;
      Ev (glGetProgramiv h GL_LINK_STATUS) status],
     Returned (negb (status =? 0))).
Proof.
  simpl. void_answers d. rewrite <- app_assoc. reflexivity.
Qed.

Lemma run_report_or_use (d : Driver) (hist : list Event) (this : GLSLProgram.t)
    (ok : bool) :
  let logging := trace d hist (GLSLProgram.getLog this) in
  run d hist
    (if negb ok then
       log <- GLSLProgram.getLog this ;;
       _ <- call (printf LOG_format [arg_str log]) ;;
       Ret tt
     else GLSLProgram.use this)
  = (if ok then [Ev (glUseProgram (GLSLProgram.handle this)) tt]
     else
       logging ++
       match outcome d hist (GLSLProgram.getLog this) with
       | Returned log =>
           let print := printf LOG_format [arg_str log] in
           [Ev print (d (hist ++ logging) print)]
       | Exited _ => []
       end,
     Returned tt).
Proof.
  destruct ok; simpl negb; cbv iota.
  - simpl. void_answers d. reflexivity.
  - intro logging. destruct (program_getLog_returns d hist this) as [log Hlog].
    rewrite Hlog.
    eapply run_then; [rewrite run_eta, Hlog; reflexivity|].
    simpl. reflexivity.
Qed.

Lemma run_program_construction (d : Driver) (hist : list Event) (name : string)
    (shaders : list GLSLShader.t) :
  let h := d hist glCreateProgram in
  let this := {| GLSLProgram.handle := h |} in
  let setup := program_setup h name shaders in
  let query := glGetProgramiv h GL_LINK_STATUS in
  let status := d (hist ++ setup) query in
  let linked := hist ++ setup ++ [Ev query status] in
  let logging := trace d linked (GLSLProgram.getLog this) in
  run d hist (GLSLProgram.GLSLProgram name shaders) =
    (setup ++ [Ev query status]
       ++ (if status =? 0 then
             logging ++
             match outcome d linked (GLSLProgram.getLog this) with
             | Returned log =>
                 let print := printf LOG_format [arg_str log] in
                 [Ev print (d (linked ++ logging) print)]
             | Exited _ => []
             end
           else [Ev (glUseProgram h) tt])
       ++ detach_events h shaders,
     Returned this).
Proof.
  intros h this setup query status linked logging.
  etransitivity.
  { unfold GLSLProgram.GLSLProgram.
    eapply run_then; [apply run_call|].
    eapply run_then; [apply run_call|].
    eapply run_then; [apply run_attach_all|].
    eapply run_then; [apply run_link|].
    eapply run_then; [apply run_report_or_use|].
    eapply run_then; [apply run_detach_all|].
    reflexivity. }
  subst linked logging status setup query this h. unfold program_setup.
  cbn [GLSLProgram.handle]. void_answers d.
  repeat rewrite <- app_assoc. rewrite ?app_nil_r. cbn [app].
  set (st := d _ (glGetProgramiv _ GL_LINK_STATUS)).
  destruct (st =? 0); cbn [negb]; [|reflexivity].
  match goal with
  | |- context [outcome d ?H (GLSLProgram.getLog ?t)] =>
      destruct (program_getLog_returns d H t) as [log Hlog]; rewrite Hlog
  end.
  cbv zeta. repeat rewrite <- app_assoc. cbn [app]. reflexivity.
Qed.

(** C1.  What constructing a [GLSLProgram] does, call by call, whatever
    the driver answers and whatever shaders are passed: it creates the
    program, labels it, attaches every shader in order, links, validates
    and reads the link status.  A status other than [0] is followed by
    [glUseProgram].  A status of [0] is followed by the query of the log
    length [n]: for a positive [n] by the allocation of the log array, the
    fetch of the driver's info log with buffer size [n], and a [printf]
    whose [%s] argument is the text the driver wrote, so that the line
    printed is ["LOG: "], that text and a line feed; for an [n] of zero or
    less by a [printf] whose [%s] argument is the null pointer, for which
    the C standard defines no output.  In every case each shader is then
    detached, in the order of attachment, and the wrapper of the new name
    is returned. *)
Theorem C1_program_construction_sequence :
  forall (d : Driver) (hist : list Event) (name : string) (shaders : list GLSLShader.t),
    let h := d hist glCreateProgram in
    let this := {| GLSLProgram.handle := h |} in
    let status_query := glGetProgramiv h GL_LINK_STATUS in
    let length_query := glGetProgramiv h GL_INFO_LOG_LENGTH in
    let linking :=
      [Ev glCreateProgram h;
       Ev (glObjectLabel GL_PROGRAM h (to_GLsizei (size name)) name) tt]
      ++ attach_events h shaders
      ++ [Ev (glLinkProgram h) tt; Ev (glValidateProgram h) tt] in
    let status := d (hist ++ linking) status_query in
    let linked := hist ++ linking ++ [Ev status_query status] in
    let n := d linked length_query in
    let alloc := Ev (new_char_array (to_size_t n)) tt in
    let fetch := glGetProgramInfoLog h n nullptr in
    let log := d (linked ++ [Ev length_query n; alloc]) fetch in
    let fetched := [Ev length_query n; alloc; Ev fetch log] in
    let print_log := printf LOG_format [arg_str (Some log)] in
    let print_null := printf LOG_format [arg_str None] in
    let middle :=
      if status =? 0 then
        if 0 <? n then
          fetched ++ [Ev print_log (d (linked ++ fetched) print_log)]
        else
          [Ev length_query n;
           Ev print_null (d (linked ++ [Ev length_query n]) print_null)]
      else [Ev (glUseProgram h) tt] in
    run d hist (GLSLProgram.GLSLProgram name shaders)
    = (linking ++ [Ev status_query status] ++ middle ++ detach_events h shaders,
       Returned this)
    /\ stdout_writes (trace d hist (GLSLProgram.GLSLProgram name shaders))
       = (if status =? 0
          then (if 0 <? n then [Some ("LOG: " ++ log ++ LF)%string] else [None])
          else []).
Proof.
  intros d hist name shaders. cbv zeta.
  assert (Hattach : forall h l,
    flat_map (fun c => match c with printf f a => [formatted f a] | _ => [] end)
      (List.map call_of (attach_events h l)) = []).
  { intros h l. induction l as [| s l IH]; simpl; [reflexivity | exact IH]. }
  assert (Hdetach : forall h l,
    flat_map (fun c => match c with printf f a => [formatted f a] | _ => [] end)
      (List.map call_of (detach_events h l)) = []).
  { intros h l. induction l as [| s l IH]; simpl; [reflexivity | exact IH]. }
  unfold trace. rewrite run_program_construction. cbv zeta. cbn [fst].
  unfold outcome, trace. rewrite run_program_getLog. cbv zeta.
  unfold program_setup, stdout_writes, calls. cbn [GLSLProgram.handle].
  split.
  - destruct (_ =? 0); [|reflexivity].
    destruct (0 <? _); cbn [fst snd];
      repeat rewrite <- app_assoc; reflexivity.
  - destruct (_ =? 0); [destruct (0 <? _)|]; cbn [fst snd];
      rewrite !List.map_app, !flat_map_app, Hattach, Hdetach; reflexivity.
Qed.

(** C1 at a driver that reports a failed link and an empty info log: the
    constructor asks for the length, is answered [0], and calls [printf]
    with the null pointer for [%s]; nothing of a log is written.  The two
    shaders are still detached and the wrapper is returned. *)
Lemma C1_failed_link_with_empty_log :
  run failing_driver []
    (GLSLProgram.GLSLProgram "p"
       [{| GLSLShader.handle := 3 |}; {| GLSLShader.handle := 4 |}])
  = ([Ev glCreateProgram 7; Ev (glObjectLabel GL_PROGRAM 7 1 "p") tt;
      Ev (glAttachShader 7 3) tt; Ev (glAttachShader 7 4) tt;
      Ev (glLinkProgram 7) tt; Ev (glValidateProgram 7) tt;
      Ev (glGetProgramiv 7 GL_LINK_STATUS) 0;
      Ev (glGetProgramiv 7 GL_INFO_LOG_LENGTH) 0;
      Ev (printf LOG_format [arg_str None]) 0;
      Ev (glDetachShader 7 3) tt; Ev (glDetachShader 7 4) tt],
     Returned {| GLSLProgram.handle := 7 |})
  /\ stdout_writes
       (trace failing_driver []
          (GLSLProgram.GLSLProgram "p"
             [{| GLSLShader.handle := 3 |}; {| GLSLShader.handle := 4 |}]))
     = [None].
Proof.
  exact (C1_program_construction_sequence failing_driver [] "p"
           [{| GLSLShader.handle := 3 |}; {| GLSLShader.handle := 4 |}]).
Defined.

(** ** Framebuffers and buffers: bind, unbind, map *)

(** C2.  [bind(t)] followed by [unbind()] binds the framebuffer to [t],
    then binds framebuffer [0] to that same [t], and leaves the stored
    target at the unbound value [0].  After several binds it is the target
    of the last one that [unbind] uses. *)
Theorem C2_fbo_unbind_uses_last_bound_target :
  forall (d : Driver) (hist : list Event) (fbo : GLFBO.t) (t0 t : GLenum),
    run d hist (bound <- GLFBO.bind fbo t ;; GLFBO.unbind bound)
    = ([Ev (glBindFramebuffer t (GLFBO.handle fbo)) tt;
        Ev (glBindFramebuffer t 0) tt],
       Returned {| GLFBO.handle := GLFBO.handle fbo; GLFBO.target := 0 |})
    /\ run d hist (first <- GLFBO.bind fbo t0 ;;
                   bound <- GLFBO.bind first t ;;
                   GLFBO.unbind bound)
       = ([Ev (glBindFramebuffer t0 (GLFBO.handle fbo)) tt;
           Ev (glBindFramebuffer t (GLFBO.handle fbo)) tt;
           Ev (glBindFramebuffer t 0) tt],
          Returned {| GLFBO.handle := GLFBO.handle fbo; GLFBO.target := 0 |}).
Proof.
  intros d hist fbo t0 t. split; simpl; void_answers d; reflexivity.
Qed.

(** C7.  [map] issues [glMapBuffer] on the stored target and nothing
    else, and returns nothing: whatever address the driver answers, the
    method's result is the same and no field can hold it.  [unmap] is the
    same code for every access value: one [glUnmapBuffer] on the stored
    target. *)
Theorem C7_map_drops_pointer_unmap_ignores_access :
  forall (d d' : Driver) (hist : list Event) (b : GLBuffer.t) (access a1 a2 : GLenum),
    run d hist (GLBuffer.map b access)
    = ([Ev (glMapBuffer (GLBuffer.target b) access)
           (d hist (glMapBuffer (GLBuffer.target b) access))],
       Returned tt)
    /\ outcome d hist (GLBuffer.map b access) = outcome d' hist (GLBuffer.map b access)
    /\ GLBuffer.unmap b a1 = GLBuffer.unmap b a2
    /\ run d hist (GLBuffer.unmap b a1)
       = ([Ev (glUnmapBuffer (GLBuffer.target b))
              (d hist (glUnmapBuffer (GLBuffer.target b)))],
          Returned tt).
Proof.
  intros d d' hist b access a1 a2. repeat split.
Qed.

(** C10.  [GLBuffer::unbind] binds object [0] to the buffer's stored
    target; it is a [const] method of a struct without [mutable] members, so
    the buffer it is called on is the buffer the next method sees: a
    following [bind] binds the same handle to the same target.
    [GLFBO::unbind], in contrast, leaves its object with target [0]. *)
Theorem C10_buffer_unbind_keeps_fields :
  forall (d : Driver) (hist : list Event) (b : GLBuffer.t) (fbo : GLFBO.t),
    run d hist (GLBuffer.unbind b)
    = ([Ev (glBindBuffer (GLBuffer.target b) 0) tt], Returned tt)
    /\ run d hist (GLBuffer.unbind b ;; GLBuffer.bind b)
       = ([Ev (glBindBuffer (GLBuffer.target b) 0) tt;
           Ev (glBindBuffer (GLBuffer.target b) (GLBuffer.handle b)) tt],
          Returned tt)
    /\ outcome d hist (GLFBO.unbind fbo)
       = Returned {| GLFBO.handle := GLFBO.handle fbo; GLFBO.target := 0 |}.
Proof.
  intros d hist b fbo. repeat split; simpl; void_answers d; reflexivity.
Qed.

(** ** The scoped debug marker *)

(** C8.  Without [NDEBUG] the constructor issues one [glPushDebugGroup]
    and the destructor one [glPopDebugGroup]; a block guarded by a marker
    whose statements complete therefore issues the push, the block's own
    calls, and the pop.  With [NDEBUG] neither issues anything, and the
    guarded block issues its own calls only. *)
Theorem C8_scoped_marker_push_pop :
  forall (d : Driver) (hist : list Event) (msg : c_str) (A : Type) (body : Prog A),
    let push := Ev (glPushDebugGroup GL_DEBUG_SOURCE_APPLICATION 0 (-1) msg) tt in
    let pop := Ev glPopDebugGroup tt in
    run d hist (GLScopedDebugMarker.GLScopedDebugMarker false msg) = ([push], Returned tt)
    /\ run d hist (GLScopedDebugMarker.destroy false tt) = ([pop], Returned tt)
    /\ run d hist (GLScopedDebugMarker.GLScopedDebugMarker true msg) = ([], Returned tt)
    /\ run d hist (GLScopedDebugMarker.destroy true tt) = ([], Returned tt)
    /\ run d hist (GLScopedDebugMarker.scope false msg body)
       = match outcome d (hist ++ [push]) body with
         | Returned a => (push :: trace d (hist ++ [push]) body ++ [pop], Returned a)
         | Exited s => (push :: trace d (hist ++ [push]) body, Exited s)
         end
    /\ run d hist (GLScopedDebugMarker.scope true msg body) = run d hist body.
Proof.
  intros d hist msg A body push pop. subst push pop.
  repeat split; try (simpl; void_answers d; reflexivity).
  - unfold GLScopedDebugMarker.scope.
    destruct (outcome d (hist ++ _) body) as [a | s] eqn:Hbody.
    + etransitivity.
      { eapply run_then; [simpl; void_answers d; reflexivity|].
        eapply run_then; [rewrite run_eta, Hbody; reflexivity|].
        simpl. void_answers d. reflexivity. }
      reflexivity.
    + etransitivity.
      { eapply run_then; [simpl; void_answers d; reflexivity|].
        rewrite run_bind, Hbody. reflexivity. }
      reflexivity.
  - unfold GLScopedDebugMarker.scope. simpl.
    rewrite run_bind, (run_eta d hist body).
    destruct (outcome d hist body); [|reflexivity].
    unfold trace at 2, outcome. simpl. rewrite app_nil_r. reflexivity.
Qed.

(** ** The debug string tables *)

(** Decides the comparisons of a [switch] one after the other. *)
Ltac switch_cases :=
  repeat match goal with
    | |- context [?v =? ?k] =>
        let E := fresh "E" in
        destruct (v =? k) eqn:E;
        [apply Z.eqb_eq in E | apply Z.eqb_neq in E]
    end.

Lemma debugSourceString_text (source : GLenum) :
  exists label, debugSourceString source = Some label.
Proof. unfold debugSourceString. switch_cases; eauto. Qed.

Lemma debugTypeString_text (type : GLenum) :
  exists label, debugTypeString type = Some label.
Proof. unfold debugTypeString. switch_cases; eauto. Qed.

Lemma debugSeverityString_text (severity : GLenum) :
  exists label, debugSeverityString severity = Some label.
Proof. unfold debugSeverityString. switch_cases; eauto. Qed.

(** C9.  The three functions are defined on every [GLenum] and never
    return the null pointer: each enumerated case yields its label, and
    every other value yields ["UNKNOWN"]. *)
Theorem C9_debug_strings_total :
  forall v : GLenum,
    (debugSourceString v <> None
     /\ debugTypeString v <> None
     /\ debugSeverityString v <> None)
    /\ (covers debugSourceString source_labels
        /\ covers debugTypeString type_labels
        /\ covers debugSeverityString severity_labels)
    /\ (~ In v (List.map fst source_labels) -> debugSourceString v = Some "UNKNOWN")
    /\ (~ In v (List.map fst type_labels) -> debugTypeString v = Some "UNKNOWN")
    /\ (~ In v (List.map fst severity_labels) -> debugSeverityString v = Some "UNKNOWN").
Proof.
  intro v. split; [|split; [|split; [|split]]].
  - destruct (debugSourceString_text v) as [a Ha].
    destruct (debugTypeString_text v) as [b Hb].
    destruct (debugSeverityString_text v) as [c Hc].
    rewrite Ha, Hb, Hc. repeat split; discriminate.
  - unfold covers. repeat split; repeat constructor.
  - intro Hout. unfold debugSourceString. simpl in Hout.
    switch_cases; try reflexivity; exfalso; apply Hout; subst v; tauto.
  - intro Hout. unfold debugTypeString. simpl in Hout.
    switch_cases; try reflexivity; exfalso; apply Hout; subst v; tauto.
  - intro Hout. unfold debugSeverityString. simpl in Hout.
    switch_cases; try reflexivity; exfalso; apply Hout; subst v; tauto.
Qed.

(** ** The debug callback *)

Lemma substring_whole (s : string) : substring 0 (String.length s) s = s.
Proof. induction s as [| c s IH]; simpl; [|rewrite IH]; reflexivity. Qed.

(** A precision equal to the length of the text keeps all of it, and so
    does a negative one. *)
Lemma precision_whole (s : string) : precision (size s) s = s.
Proof.
  unfold precision, size.
  destruct (Z.of_nat (String.length s) <? 0) eqn:E; [reflexivity|].
  rewrite Nat2Z.id. apply substring_whole.
Qed.

(** C5.  For every message the driver delivers, the callback writes one
    line to [stderr], made of the labels of the source, the type and the
    severity and of the message text (the first [length] characters of it,
    which is all of it for the length the driver passes along with the
    text), and then calls [exit(1)] exactly when the type is
    [GL_DEBUG_TYPE_ERROR] or the severity is [GL_DEBUG_SEVERITY_HIGH];
    otherwise it returns. *)
Theorem C5_callback_logs_then_exits_on_error_or_high :
  forall (d : Driver) (hist : list Event) (source type : GLenum) (id : GLuint)
         (severity : GLenum) (length : GLsizei) (message : string) (userParam : pointer),
  exists (src ty sev : string) (line : Event),
    debugSourceString source = Some src
    /\ debugTypeString type = Some ty
    /\ debugSeverityString severity = Some sev
    /\ trace d hist (callback source type id severity length (Some message) userParam)
       = [line]
    /\ text_written stderr line
       = Some ("[" ++ src ++ "] " ++ ty ++ " (" ++ sev ++ "): "
               ++ precision length message ++ LF)%string
    /\ precision (size message) message = message
    /\ (outcome d hist (callback source type id severity length (Some message) userParam)
        = Exited 1
        <-> type = GL_DEBUG_TYPE_ERROR \/ severity = GL_DEBUG_SEVERITY_HIGH)
    /\ (outcome d hist (callback source type id severity length (Some message) userParam)
        = Returned tt
        <-> ~ (type = GL_DEBUG_TYPE_ERROR \/ severity = GL_DEBUG_SEVERITY_HIGH)).
Proof.
  intros d hist source type id severity length message userParam.
  destruct (debugSourceString_text source) as [src Hsrc].
  destruct (debugTypeString_text type) as [ty Hty].
  destruct (debugSeverityString_text severity) as [sev Hsev].
  exists src, ty, sev. eexists.
  split; [exact Hsrc|]. split; [exact Hty|]. split; [exact Hsev|].
  unfold trace, outcome, callback. rewrite Hsrc, Hty, Hsev. simpl run.
  assert (Hcond : (type =? GL_DEBUG_TYPE_ERROR) || (severity =? GL_DEBUG_SEVERITY_HIGH) = true
                  <-> type = GL_DEBUG_TYPE_ERROR \/ severity = GL_DEBUG_SEVERITY_HIGH).
  { rewrite orb_true_iff, !Z.eqb_eq. tauto. }
  destruct ((type =? GL_DEBUG_TYPE_ERROR) || (severity =? GL_DEBUG_SEVERITY_HIGH));
    simpl; (split; [reflexivity|]); (split; [reflexivity|]);
    (split; [apply precision_whole|]); split; split; intro H;
    try reflexivity; try discriminate.
  - apply Hcond. reflexivity.
  - exfalso. apply H, Hcond. reflexivity.
  - apply Hcond in H. discriminate.
  - intro H'. apply Hcond in H'. discriminate.
Qed.

(** ** Fetching an info log *)

Lemma to_size_t_positive_int (n : Z) : is_int n -> 0 < n -> to_size_t n = n.
Proof.
  unfold is_int, to_size_t. intros Hint Hpos. apply Z.mod_small.
  assert (2 ^ 31 < 2 ^ 64) by reflexivity. lia.
Qed.

(** C6.  In both [getLog] methods, a reported length of zero gives the
    empty result after the length query alone: there is no fetch call and
    nothing is taken from the heap.  An array is allocated exactly when the
    reported length is positive, once, with the reported length as its
    size (the conversion to [size_t] keeps a positive [int]). *)
Theorem C6_getLog_allocates_only_for_nonempty_log :
  forall (d : Driver) (hist : list Event) (shader : GLSLShader.t) (program : GLSLProgram.t),
    let shader_query := glGetShaderiv (GLSLShader.handle shader) GL_INFO_LOG_LENGTH in
    let program_query := glGetProgramiv (GLSLProgram.handle program) GL_INFO_LOG_LENGTH in
    let ns := d hist shader_query in
    let np := d hist program_query in
    let ts := trace d hist (GLSLShader.getLog shader) in
    let tp := trace d hist (GLSLProgram.getLog program) in
    (ns = 0 ->
       outcome d hist (GLSLShader.getLog shader) = Returned None
       /\ ts = [Ev shader_query ns]
       /\ existsb fetches_log (calls ts) = false
       /\ heap_allocations ts = [])
    /\ (np = 0 ->
          outcome d hist (GLSLProgram.getLog program) = Returned None
          /\ tp = [Ev program_query np]
          /\ existsb fetches_log (calls tp) = false
          /\ heap_allocations tp = [])
    /\ heap_allocations ts = (if 0 <? ns then [to_size_t ns] else [])
    /\ heap_allocations tp = (if 0 <? np then [to_size_t np] else [])
    /\ (forall n : Z, is_int n -> 0 < n -> to_size_t n = n).
Proof.
  intros d hist shader program shader_query program_query ns np ts tp.
  subst ts tp. unfold trace, outcome.
  rewrite run_shader_getLog, run_program_getLog. cbv zeta.
  fold shader_query program_query. fold ns np.
  split; [|split; [|split; [|split]]].
  - intro H. rewrite H. repeat split.
  - intro H. rewrite H. repeat split.
  - destruct (0 <? ns); reflexivity.
  - destruct (0 <? np); reflexivity.
  - exact to_size_t_positive_int.
Qed.

(** ** What the constructors bind and allocate *)

Lemma calls_app (t1 t2 : list Event) : calls (t1 ++ t2) = calls t1 ++ calls t2.
Proof. apply List.map_app. Qed.

Lemma attach_events_bind_nothing (h : GLuint) (shaders : list GLSLShader.t) :
  filter binds_or_activates (calls (attach_events h shaders)) = [].
Proof. induction shaders as [| s l IH]; simpl; [reflexivity | exact IH]. Qed.

Lemma detach_events_bind_nothing (h : GLuint) (shaders : list GLSLShader.t) :
  filter binds_or_activates (calls (detach_events h shaders)) = [].
Proof. induction shaders as [| s l IH]; simpl; [reflexivity | exact IH]. Qed.

Lemma program_getLog_binds_nothing (d : Driver) (hist : list Event) (this : GLSLProgram.t) :
  filter binds_or_activates (calls (trace d hist (GLSLProgram.getLog this))) = [].
Proof.
  unfold trace. rewrite run_program_getLog. cbv zeta.
  destruct (0 <? _); reflexivity.
Qed.

(** C3, as the code has it.  The constructors of [VAO], [GLBuffer],
    [GLTexture] and [GLFBO] take a name from the driver, bind it to the
    object's target and label it, in this order.  The constructor of
    [GLSLShader] takes a name and labels it, and issues no bind or
    activation at all.  The constructor of [GLSLProgram] takes a name and
    labels it, and its only bind or activation is [glUseProgram] on the new
    name, issued exactly when the link status is not [0]. *)
Theorem C3_construction_binds_except_shader_and_unlinked_program :
  forall (d : Driver) (hist : list Event) (name : string) (target : GLenum)
         (levels : GLsizei) (internalformat : GLenum) (width height depth : GLsizei)
         (type : GLenum) (code : c_str) (shaders : list GLSLShader.t),
    (let h := d hist (glGenVertexArrays 1) in
     run d hist (VAO.VAO name)
     = ([Ev (glGenVertexArrays 1) h; Ev (glBindVertexArray h) tt;
         Ev (glObjectLabel GL_VERTEX_ARRAY h (to_GLsizei (size name)) name) tt],
        Returned {| VAO.handle := h |}))
    /\ (let h := d hist (glGenBuffers 1) in
        run d hist (GLBuffer.GLBuffer target name)
        = ([Ev (glGenBuffers 1) h; Ev (glBindBuffer target h) tt;
            Ev (glObjectLabel GL_BUFFER h (to_GLsizei (size name)) name) tt],
           Returned {| GLBuffer.handle := h; GLBuffer.target := target |}))
    /\ (let h := d hist (glGenTextures 1) in
        let p := GLTexture.GLTexture target name levels internalformat width height depth in
        firstn 3 (trace d hist p)
        = [Ev (glGenTextures 1) h; Ev (glBindTexture target h) tt;
           Ev (glObjectLabel GL_TEXTURE h (to_GLsizei (size name)) name) tt]
        /\ outcome d hist p
           = Returned {| GLTexture.handle := h; GLTexture.target := target |})
    /\ (let h := d hist (glGenFramebuffers 1) in
        let p := GLFBO.GLFBO target name levels internalformat width height depth in
        firstn 3 (trace d hist p)
        = [Ev (glGenFramebuffers 1) h; Ev (glBindFramebuffer target h) tt;
           Ev (glObjectLabel GL_FRAMEBUFFER h (to_GLsizei (size name)) name) tt]
        /\ outcome d hist p
           = Returned {| GLFBO.handle := h; GLFBO.target := target |})
    /\ (let h := d hist (glCreateShader type) in
        let p := GLSLShader.GLSLShader type name code in
        firstn 2 (trace d hist p)
        = [Ev (glCreateShader type) h;
           Ev (glObjectLabel GL_SHADER h (to_GLsizei (size name)) name) tt]
        /\ outcome d hist p = Returned {| GLSLShader.handle := h |}
        /\ filter binds_or_activates (calls (trace d hist p)) = [])
    /\ (let h := d hist glCreateProgram in
        let status :=
          d (hist ++ program_setup h name shaders) (glGetProgramiv h GL_LINK_STATUS) in
        let p := GLSLProgram.GLSLProgram name shaders in
        firstn 2 (trace d hist p)
        = [Ev glCreateProgram h;
           Ev (glObjectLabel GL_PROGRAM h (to_GLsizei (size name)) name) tt]
        /\ outcome d hist p = Returned {| GLSLProgram.handle := h |}
        /\ filter binds_or_activates (calls (trace d hist p))
           = (if status =? 0 then [] else [glUseProgram h])).
Proof.
  intros d hist name target levels internalformat width height depth type code shaders.
  split; [|split; [|split; [|split; [|split]]]].
  - simpl. void_answers d. reflexivity.
  - simpl. void_answers d. reflexivity.
  - unfold trace, outcome, GLTexture.GLTexture.
    destruct (negb (depth =? 1)); [|destruct (negb (height =? 1))];
      simpl; void_answers d; split; reflexivity.
  - unfold trace, outcome, GLFBO.GLFBO.
    destruct (negb (depth =? 1)); [|destruct (negb (height =? 1))];
      simpl; void_answers d; split; reflexivity.
  - unfold trace, outcome, GLSLShader.GLSLShader, GLSLShader.compile, GLSLShader.getLog.
    simpl. void_answers d.
    destruct (d _ (glGetShaderiv _ GL_COMPILE_STATUS) =? GL_FALSE); simpl;
      [destruct (0 <? d _ (glGetShaderiv _ GL_INFO_LOG_LENGTH)); simpl|];
      void_answers d; repeat split.
  - cbv zeta. unfold trace, outcome. rewrite run_program_construction. cbv zeta.
    cbn [fst snd]. split; [|split].
    + unfold program_setup. reflexivity.
    + reflexivity.
    + rewrite !calls_app, !filter_app.
      rewrite detach_events_bind_nothing, app_nil_r.
      unfold program_setup. rewrite !calls_app, !filter_app.
      rewrite attach_events_bind_nothing.
      destruct (d _ (glGetProgramiv _ GL_LINK_STATUS) =? 0); [|reflexivity].
      rewrite calls_app, filter_app, program_getLog_binds_nothing.
      destruct (outcome d _ (GLSLProgram.getLog _)); reflexivity.
Qed.

(** C3 fails as stated: constructing a shader against a driver that
    compiles it successfully returns the wrapper of the new name [7], and
    not one of the calls issued binds or activates anything. *)
Lemma C3_shader_construction_binds_nothing :
  run working_driver [] (GLSLShader.GLSLShader GL_VERTEX_SHADER "vs" (Some "void main(){}"))
  = ([Ev (glCreateShader GL_VERTEX_SHADER) 7;
      Ev (glObjectLabel GL_SHADER 7 2 "vs") tt;
      Ev (glShaderSource 7 1 (Some "void main(){}") nullptr) tt;
      Ev (glCompileShader 7) tt;
      Ev (glGetShaderiv 7 GL_COMPILE_STATUS) 1],
     Returned {| GLSLShader.handle := 7 |})
  /\ existsb binds_or_activates
       (calls (trace working_driver []
                 (GLSLShader.GLSLShader GL_VERTEX_SHADER "vs" (Some "void main(){}"))))
     = false.
Proof. split; reflexivity. Qed.

(** C4, as the code has it.  The constructors of [GLTexture] and [GLFBO]
    issue exactly one storage allocation: the 3D one when [depth] is not
    [1], else the 2D one when [height] is not [1], else the 1D one.  The
    constructor of [GLBuffer] has no size parameters and allocates no
    storage. *)
Theorem C4_texture_and_fbo_pick_one_storage_path :
  forall (d : Driver) (hist : list Event) (target : GLenum) (name : string)
         (levels : GLsizei) (internalformat : GLenum) (width height depth : GLsizei),
    let storage_of (A : Type) (p : Prog A) :=
      filter allocates_storage (calls (trace d hist p)) in
    let texture :=
      storage_of _ (GLTexture.GLTexture target name levels internalformat width height depth) in
    let fbo :=
      storage_of _ (GLFBO.GLFBO target name levels internalformat width height depth) in
    (depth <> 1 ->
       texture = [glTexStorage3D target levels internalformat width height depth]
       /\ fbo = [glTexStorage3D target levels internalformat width height depth])
    /\ (depth = 1 -> height <> 1 ->
          texture = [glTexStorage2D target levels internalformat width height]
          /\ fbo = [glTexStorage2D target levels internalformat width height])
    /\ (depth = 1 -> height = 1 ->
          texture = [glTexStorage1D target levels internalformat width]
          /\ fbo = [glTexStorage1D target levels internalformat width])
    /\ storage_of _ (GLBuffer.GLBuffer target name) = [].
Proof.
  intros d hist target name levels internalformat width height depth.
  cbv zeta. unfold trace, GLTexture.GLTexture, GLFBO.GLFBO.
  split; [|split; [|split]].
  - intro Hd. apply Z.eqb_neq in Hd. rewrite Hd. split; reflexivity.
  - intros Hd Hh. apply Z.eqb_eq in Hd. apply Z.eqb_neq in Hh. rewrite Hd, Hh.
    split; reflexivity.
  - intros Hd Hh. apply Z.eqb_eq in Hd. apply Z.eqb_eq in Hh. rewrite Hd, Hh.
    split; reflexivity.
  - reflexivity.
Qed.

(** C4 fails as stated for buffers: constructing a [GLBuffer] takes none
    of the storage paths. *)
Lemma C4_buffer_construction_allocates_no_storage :
  run working_driver [] (GLBuffer.GLBuffer GL_ARRAY_BUFFER "vbo")
  = ([Ev (glGenBuffers 1) 7; Ev (glBindBuffer GL_ARRAY_BUFFER 7) tt;
      Ev (glObjectLabel GL_BUFFER 7 3 "vbo") tt],
     Returned {| GLBuffer.handle := 7; GLBuffer.target := GL_ARRAY_BUFFER |})
  /\ List.length
       (filter allocates_storage
          (calls (trace working_driver [] (GLBuffer.GLBuffer GL_ARRAY_BUFFER "vbo"))))
     = 0%nat.
Proof. split; reflexivity. Qed.

(** ** Runs against the scripted drivers *)

(** A link that fails with a log of five characters: the log is fetched
    into an array of five characters and printed, nothing is activated, and
    both shaders are detached. *)
Example program_construction_when_link_fails :
  run link_error_driver []
    (GLSLProgram.GLSLProgram "p"
       [{| GLSLShader.handle := 3 |}; {| GLSLShader.handle := 4 |}])
  = ([Ev glCreateProgram 7; Ev (glObjectLabel GL_PROGRAM 7 1 "p") tt;
      Ev (glAttachShader 7 3) tt; Ev (glAttachShader 7 4) tt;
      Ev (glLinkProgram 7) tt; Ev (glValidateProgram 7) tt;
      Ev (glGetProgramiv 7 GL_LINK_STATUS) 0;
      Ev (glGetProgramiv 7 GL_INFO_LOG_LENGTH) 5;
      Ev (new_char_array 5) tt;
      Ev (glGetProgramInfoLog 7 5 nullptr) "oops";
      Ev (printf LOG_format [arg_str (Some "oops")]) 0;
      Ev (glDetachShader 7 3) tt; Ev (glDetachShader 7 4) tt],
     Returned {| GLSLProgram.handle := 7 |}).
Proof. reflexivity. Qed.

Example program_construction_when_link_succeeds :
  run working_driver []
    (GLSLProgram.GLSLProgram "p"
       [{| GLSLShader.handle := 3 |}; {| GLSLShader.handle := 4 |}])
  = ([Ev glCreateProgram 7; Ev (glObjectLabel GL_PROGRAM 7 1 "p") tt;
      Ev (glAttachShader 7 3) tt; Ev (glAttachShader 7 4) tt;
      Ev (glLinkProgram 7) tt; Ev (glValidateProgram 7) tt;
      Ev (glGetProgramiv 7 GL_LINK_STATUS) 1;
      Ev (glUseProgram 7) tt;
      Ev (glDetachShader 7 3) tt; Ev (glDetachShader 7 4) tt],
     Returned {| GLSLProgram.handle := 7 |}).
Proof. reflexivity. Qed.

(** A failed link with an empty log: [getLog] returns the empty pointer
    after the length query, without a fetch or an allocation. *)
Example program_construction_when_log_is_empty :
  trace failing_driver [] (GLSLProgram.GLSLProgram "p" [])
  = [Ev glCreateProgram 7; Ev (glObjectLabel GL_PROGRAM 7 1 "p") tt;
     Ev (glLinkProgram 7) tt; Ev (glValidateProgram 7) tt;
     Ev (glGetProgramiv 7 GL_LINK_STATUS) 0;
     Ev (glGetProgramiv 7 GL_INFO_LOG_LENGTH) 0;
     Ev (printf LOG_format [arg_str None]) 0].
Proof. reflexivity. Qed.

Example callback_on_error_message :
  let p := callback GL_DEBUG_SOURCE_API GL_DEBUG_TYPE_ERROR 0 GL_DEBUG_SEVERITY_LOW
             7 (Some "bad enum") nullptr in
  List.map (text_written stderr) (trace working_driver [] p)
  = [Some ("[API] Error (Low): bad enu" ++ LF)%string]
  /\ outcome working_driver [] p = Exited 1.
Proof. split; reflexivity. Qed.

Example callback_on_notification :
  let p := callback GL_DEBUG_SOURCE_APPLICATION GL_DEBUG_TYPE_MARKER 0
             GL_DEBUG_SEVERITY_NOTIFICATION 5 (Some "frame") nullptr in
  List.map (text_written stderr) (trace working_driver [] p)
  = [Some ("[Application] Marker (Notification): frame" ++ LF)%string]
  /\ outcome working_driver [] p = Returned tt.
Proof. split; reflexivity. Qed.

Example texture_2d_storage :
  calls (trace working_driver [] (GLTexture.GLTexture GL_TEXTURE_2D "t" 1 GL_RGBA8 64 32 1))
  = [glGenTextures 1; glBindTexture GL_TEXTURE_2D 7;
     glObjectLabel GL_TEXTURE 7 1 "t"; glTexStorage2D GL_TEXTURE_2D 1 GL_RGBA8 64 32].
Proof. reflexivity. Qed.

Example buffer_map_then_unmap :
  let b := {| GLBuffer.handle := 7; GLBuffer.target := GL_ARRAY_BUFFER |} in
  run working_driver [] (GLBuffer.map b GL_READ_WRITE ;; GLBuffer.unmap b GL_READ_ONLY)
  = ([Ev (glMapBuffer GL_ARRAY_BUFFER GL_READ_WRITE) 4096;
      Ev (glUnmapBuffer GL_ARRAY_BUFFER) 0],
     Returned tt).
Proof. reflexivity. Qed.

(** * Further properties *)

(** ** Construction of a shader *)

Lemma run_compile (d : Driver) (hist : list Event) (this : GLSLShader.t) :
  let h := GLSLShader.handle this in
  let status := d (hist ++ [Ev (glCompileShader h) tt])
                  (glGetShaderiv h GL_COMPILE_STATUS) in
  run d hist (GLSLShader.compile this) =
    ([Ev (glCompileShader h) tt; Ev (glGetShaderiv h GL_COMPILE_STATUS) status],
     Returned (negb (status =? GL_FALSE))).
Proof. simpl. void_answers d. reflexivity. Qed.

Lemma run_report_compile_failure (d : Driver) (hist : list Event) (this : GLSLShader.t)
    (ok : bool) :
  let logging := trace d hist (GLSLShader.getLog this) in
  run d hist
    (if negb ok then
       log <- GLSLShader.getLog this ;;
       _ <- call (printf LOG_format [arg_str log]) ;;
       Ret tt
     else Ret tt)
  = (if ok then []
     else
       logging ++
       match outcome d hist (GLSLShader.getLog this) with
       | Returned log =>
           let print := printf LOG_format [arg_str log] in
           [Ev print (d (hist ++ logging) print)]
       | Exited _ => []
       end,
     Returned tt).
Proof.
  destruct ok; simpl negb; cbv iota.
  - reflexivity.
  - intro logging. destruct (shader_getLog_returns d hist this) as [log Hlog].
    rewrite Hlog.
    eapply run_then; [rewrite run_eta, Hlog; reflexivity|].
    simpl. reflexivity.
Qed.

Lemma run_shader_construction (d : Driver) (hist : list Event) (type : GLenum)
    (name : string) (code : c_str) :
  let h := d hist (glCreateShader type) in
  let this := {| GLSLShader.handle := h |} in
  let setup := shader_setup h type name code in
  let query := glGetShaderiv h GL_COMPILE_STATUS in
  let status := d (hist ++ setup) query in
  let compiled := hist ++ setup ++ [Ev query status] in
  let logging := trace d compiled (GLSLShader.getLog this) in
  run d hist (GLSLShader.GLSLShader type name code) =
    (setup ++ [Ev query status]
       ++ (if status =? GL_FALSE then
             logging ++
             match outcome d compiled (GLSLShader.getLog this) with
             | Returned log =>
                 let print := printf LOG_format [arg_str log] in
                 [Ev print (d (compiled ++ logging) print)]
             | Exited _ => []
             end
           else []),
     Returned this).
Proof.
  intros h this setup query status compiled logging.
  etransitivity.
  { unfold GLSLShader.GLSLShader.
    eapply run_then; [apply run_call|].
    eapply run_then; [apply run_call|].
    eapply run_then; [apply run_call|].
    eapply run_then; [apply run_compile|].
    eapply run_then; [apply run_report_compile_failure|].
    reflexivity. }
  subst compiled logging status setup query this h. unfold shader_setup.
  cbn [GLSLShader.handle]. void_answers d.
  repeat rewrite <- app_assoc. rewrite ?app_nil_r. cbn [app].
  set (st := d _ (glGetShaderiv _ GL_COMPILE_STATUS)).
  destruct (st =? GL_FALSE); cbn [negb]; [|reflexivity].
  match goal with
  | |- context [outcome d ?H (GLSLShader.getLog ?t)] =>
      destruct (shader_getLog_returns d H t) as [log Hlog]; rewrite Hlog
  end.
  cbv zeta. repeat rewrite <- app_assoc. cbn [app]. reflexivity.
Qed.

(** X1.  What constructing a [GLSLShader] does, call by call, whatever
    the driver answers: it creates the shader, labels it, hands over the
    source, compiles and reads the compile status.  A status other than
    [GL_FALSE] is followed by nothing more.  A status of [GL_FALSE] is
    followed by the query of the log length [n]: for a positive [n] by the
    allocation of the log array, the fetch of the driver's info log with
    buffer size [n], and a [printf] whose [%s] argument is the text the
    driver wrote; for an [n] of zero or less by neither an allocation nor
    a fetch, and a [printf] whose [%s] argument is the null pointer.  In
    every case the wrapper of the new name is returned: a failed
    compilation does not end the process. *)
Theorem X1_shader_construction_sequence :
  forall (d : Driver) (hist : list Event) (type : GLenum) (name : string) (code : c_str),
    let h := d hist (glCreateShader type) in
    let this := {| GLSLShader.handle := h |} in
    let status_query := glGetShaderiv h GL_COMPILE_STATUS in
    let length_query := glGetShaderiv h GL_INFO_LOG_LENGTH in
    let compiling :=
      [Ev (glCreateShader type) h;
       Ev (glObjectLabel GL_SHADER h (to_GLsizei (size name)) name) tt;
       Ev (glShaderSource h 1 code nullptr) tt;
       Ev (glCompileShader h) tt] in
    let status := d (hist ++ compiling) status_query in
    let compiled := hist ++ compiling ++ [Ev status_query status] in
    let n := d compiled length_query in
    let alloc := Ev (new_char_array (to_size_t n)) tt in
    let fetch := glGetShaderInfoLog h n nullptr in
    let log := d (compiled ++ [Ev length_query n; alloc]) fetch in
    let fetched := [Ev length_query n; alloc; Ev fetch log] in
    let print_log := printf LOG_format [arg_str (Some log)] in
    let print_null := printf LOG_format [arg_str None] in
    let middle :=
      if status =? GL_FALSE then
        if 0 <? n then
          fetched ++ [Ev print_log (d (compiled ++ fetched) print_log)]
        else
          [Ev length_query n;
           Ev print_null (d (compiled ++ [Ev length_query n]) print_null)]
      else [] in
    run d hist (GLSLShader.GLSLShader type name code)
    = (compiling ++ [Ev status_query status] ++ middle, Returned this).
Proof.
  intros d hist type name code. cbv zeta.
  rewrite run_shader_construction. cbv zeta.
  unfold outcome, trace. rewrite run_shader_getLog. cbv zeta.
  unfold shader_setup. cbn [GLSLShader.handle].
  destruct (_ =? GL_FALSE); [|reflexivity].
  destruct (0 <? _); cbn [fst snd]; repeat rewrite <- app_assoc; reflexivity.
Qed.

(** ** Calls a construction does not issue *)

Lemma attach_events_filtered (P : Call -> bool) (h : GLuint) (shaders : list GLSLShader.t) :
  (forall s, P (glAttachShader h s) = false) ->
  filter P (calls (attach_events h shaders)) = [].
Proof.
  intro HP. induction shaders as [| s l IH]; simpl; [reflexivity|].
  rewrite HP. exact IH.
Qed.

Lemma detach_events_filtered (P : Call -> bool) (h : GLuint) (shaders : list GLSLShader.t) :
  (forall s, P (glDetachShader h s) = false) ->
  filter P (calls (detach_events h shaders)) = [].
Proof.
  intro HP. induction shaders as [| s l IH]; simpl; [reflexivity|].
  rewrite HP. exact IH.
Qed.

Lemma shader_construction_filtered (P : Call -> bool) (d : Driver) (hist : list Event)
    (type : GLenum) (name : string) (code : c_str) :
  misses_compile_and_link P ->
  let h := d hist (glCreateShader type) in
  filter P (calls (trace d hist (GLSLShader.GLSLShader type name code)))
  = filter P [glCreateShader type;
              glObjectLabel GL_SHADER h (to_GLsizei (size name)) name].
Proof.
  intros (Hsrc & Hcomp & Hsiv & Hslog & _ & _ & _ & _ & _ & _ & _ & Hnew & Hprint) h.
  unfold trace. rewrite run_shader_construction. cbv zeta. cbn [fst]. fold h.
  unfold shader_setup. unfold outcome, trace. rewrite run_shader_getLog. cbv zeta.
  destruct (_ =? GL_FALSE); [destruct (0 <? _)|]; simpl;
    rewrite ?Hsrc, ?Hcomp, ?Hsiv, ?Hslog, ?Hnew, ?Hprint; reflexivity.
Qed.

Lemma program_construction_filtered (P : Call -> bool) (d : Driver) (hist : list Event)
    (name : string) (shaders : list GLSLShader.t) :
  misses_compile_and_link P ->
  let h := d hist glCreateProgram in
  filter P (calls (trace d hist (GLSLProgram.GLSLProgram name shaders)))
  = filter P [glCreateProgram; glObjectLabel GL_PROGRAM h (to_GLsizei (size name)) name].
Proof.
  intros (_ & _ & _ & _ & Hatt & Hdet & Hlink & Hval & Hpiv & Hplog & Huse & Hnew & Hprint) h.
  unfold trace. rewrite run_program_construction. cbv zeta. cbn [fst]. fold h.
  unfold program_setup. rewrite !calls_app, !filter_app.
  rewrite (attach_events_filtered P h shaders (Hatt h)).
  rewrite (detach_events_filtered P h shaders (Hdet h)).
  unfold outcome, trace. rewrite run_program_getLog. cbv zeta.
  destruct (_ =? 0); [destruct (0 <? _)|]; simpl;
    rewrite ?Hlink, ?Hval, ?Hpiv, ?Hplog, ?Huse, ?Hnew, ?Hprint, ?app_nil_r; reflexivity.
Qed.

Lemma deletions_miss_compile_and_link : misses_compile_and_link is_deletion.
Proof. repeat split. Qed.

Lemma labels_miss_compile_and_link : misses_compile_and_link is_label.
Proof. repeat split. Qed.

(** X2.  For each of the six wrappers, constructing an object and
    destroying it at once issues the constructor's calls, none of which
    releases a name, and then exactly one call: the deletion, by the
    matching [glDelete*] entry point, of the name the constructor
    obtained.  The pair always returns. *)
Theorem X2_construct_then_destroy_releases_the_new_name :
  forall (d : Driver) (hist : list Event) (name : string) (target : GLenum)
         (levels : GLsizei) (internalformat : GLenum) (width height depth : GLsizei)
         (type : GLenum) (code : c_str) (shaders : list GLSLShader.t),
    (let new := VAO.VAO name in
     filter is_deletion (calls (trace d hist new)) = []
     /\ run d hist (this <- new ;; VAO.destroy this)
        = (trace d hist new
             ++ [Ev (glDeleteVertexArrays 1 (d hist (glGenVertexArrays 1))) tt],
           Returned tt))
    /\ (let new := GLBuffer.GLBuffer target name in
        filter is_deletion (calls (trace d hist new)) = []
        /\ run d hist (this <- new ;; GLBuffer.destroy this)
           = (trace d hist new ++ [Ev (glDeleteBuffers 1 (d hist (glGenBuffers 1))) tt],
              Returned tt))
    /\ (let new := GLTexture.GLTexture target name levels internalformat width height depth in
        filter is_deletion (calls (trace d hist new)) = []
        /\ run d hist (this <- new ;; GLTexture.destroy this)
           = (trace d hist new ++ [Ev (glDeleteTextures 1 (d hist (glGenTextures 1))) tt],
              Returned tt))
    /\ (let new := GLFBO.GLFBO target name levels internalformat width height depth in
        filter is_deletion (calls (trace d hist new)) = []
        /\ run d hist (this <- new ;; GLFBO.destroy this)
           = (trace d hist new
                ++ [Ev (glDeleteFramebuffers 1 (d hist (glGenFramebuffers 1))) tt],
              Returned tt))
    /\ (let new := GLSLShader.GLSLShader type name code in
        filter is_deletion (calls (trace d hist new)) = []
        /\ run d hist (this <- new ;; GLSLShader.destroy this)
           = (trace d hist new ++ [Ev (glDeleteShader (d hist (glCreateShader type))) tt],
              Returned tt))
    /\ (let new := GLSLProgram.GLSLProgram name shaders in
        filter is_deletion (calls (trace d hist new)) = []
        /\ run d hist (this <- new ;; GLSLProgram.destroy this)
           = (trace d hist new ++ [Ev (glDeleteProgram (d hist glCreateProgram)) tt],
              Returned tt)).
Proof.
  intros d hist name target levels internalformat width height depth type code shaders.
  cbv zeta. split; [|split; [|split; [|split; [|split]]]].
  - split; simpl; void_answers d; reflexivity.
  - split; simpl; void_answers d; reflexivity.
  - unfold trace, GLTexture.GLTexture.
    destruct (negb (depth =? 1)); [|destruct (negb (height =? 1))];
      split; simpl; void_answers d; reflexivity.
  - unfold trace, GLFBO.GLFBO.
    destruct (negb (depth =? 1)); [|destruct (negb (height =? 1))];
      split; simpl; void_answers d; reflexivity.
  - split.
    + rewrite (shader_construction_filtered _ d hist type name code
                 deletions_miss_compile_and_link).
      reflexivity.
    + eapply run_then.
      * rewrite run_eta. unfold outcome at 1.
        rewrite run_shader_construction. reflexivity.
      * simpl. void_answers d. reflexivity.
  - split.
    + rewrite (program_construction_filtered _ d hist name shaders
                 deletions_miss_compile_and_link).
      reflexivity.
    + eapply run_then.
      * rewrite run_eta. unfold outcome at 1.
        rewrite run_program_construction. reflexivity.
      * simpl. void_answers d. reflexivity.
Qed.

(** ** Labels *)

Lemma to_GLsizei_of_short_name (name : string) :
  size name < 2 ^ 31 -> to_GLsizei (size name) = size name.
Proof.
  unfold to_GLsizei, size. intro H.
  assert (0 <= Z.of_nat (String.length name)) by apply Nat2Z.is_nonneg.
  rewrite Z.mod_small; lia.
Qed.

(** X4.  Each constructor labels the new object exactly once, under the
    namespace identifier of its own kind and with the name the driver just
    handed out; for a label shorter than [2^31] characters the length it
    passes is the label's length. *)
Theorem X4_constructors_label_the_new_name_once :
  forall (d : Driver) (hist : list Event) (name : string) (target : GLenum)
         (levels : GLsizei) (internalformat : GLenum) (width height depth : GLsizei)
         (type : GLenum) (code : c_str) (shaders : list GLSLShader.t),
    size name < 2 ^ 31 ->
    let labels (A : Type) (p : Prog A) := filter is_label (calls (trace d hist p)) in
    labels _ (VAO.VAO name)
    = [glObjectLabel GL_VERTEX_ARRAY (d hist (glGenVertexArrays 1)) (size name) name]
    /\ labels _ (GLBuffer.GLBuffer target name)
       = [glObjectLabel GL_BUFFER (d hist (glGenBuffers 1)) (size name) name]
    /\ labels _ (GLTexture.GLTexture target name levels internalformat width height depth)
       = [glObjectLabel GL_TEXTURE (d hist (glGenTextures 1)) (size name) name]
    /\ labels _ (GLFBO.GLFBO target name levels internalformat width height depth)
       = [glObjectLabel GL_FRAMEBUFFER (d hist (glGenFramebuffers 1)) (size name) name]
    /\ labels _ (GLSLShader.GLSLShader type name code)
       = [glObjectLabel GL_SHADER (d hist (glCreateShader type)) (size name) name]
    /\ labels _ (GLSLProgram.GLSLProgram name shaders)
       = [glObjectLabel GL_PROGRAM (d hist glCreateProgram) (size name) name].
Proof.
  intros d hist name target levels internalformat width height depth type code shaders
         Hshort.
  cbv zeta. rewrite <- (to_GLsizei_of_short_name name Hshort).
  split; [|split; [|split; [|split; [|split]]]].
  - reflexivity.
  - reflexivity.
  - unfold trace, GLTexture.GLTexture.
    destruct (negb (depth =? 1)); [|destruct (negb (height =? 1))]; reflexivity.
  - unfold trace, GLFBO.GLFBO.
    destruct (negb (depth =? 1)); [|destruct (negb (height =? 1))]; reflexivity.
  - rewrite (shader_construction_filtered _ d hist type name code
               labels_miss_compile_and_link).
    reflexivity.
  - rewrite (program_construction_filtered _ d hist name shaders
               labels_miss_compile_and_link).
    reflexivity.
Qed.

Lemma X4_label_witness :
  size "quad" < 2 ^ 31
  /\ filter is_label
       (calls (trace working_driver []
                 (GLTexture.GLTexture GL_TEXTURE_2D "quad" 1 GL_RGBA8 64 64 1)))
     = [glObjectLabel GL_TEXTURE 7 4 "quad"].
Proof.
  split; [reflexivity|].
  apply (X4_constructors_label_the_new_name_once working_driver [] "quad"
           GL_TEXTURE_2D 1 GL_RGBA8 64 64 1 GL_VERTEX_SHADER None []).
  reflexivity.
Defined.

(** ** What construction prints *)

Lemma LOG_line (log : string) :
  formatted LOG_format [arg_str (Some log)] = Some ("LOG: " ++ log ++ LF)%string.
Proof. reflexivity. Qed.

Lemma LOG_of_null : formatted LOG_format [arg_str None] = None.
Proof. reflexivity. Qed.

(** X5.  A constructor of [GLSLShader] or [GLSLProgram] prints nothing
    when the compile or link status is non-zero.  When the status is zero
    it calls [printf] once: with a positive reported log length the line is
    ["LOG: "], the fetched log and a line feed; with a reported length of
    zero or less [getLog] returns the empty pointer, which is what [%s]
    receives, and the C standard does not define what is written. *)
Theorem X5_failed_build_prints_log_or_null :
  forall (d : Driver) (hist : list Event) (type : GLenum) (name : string) (code : c_str)
         (shaders : list GLSLShader.t),
    (let h := d hist (glCreateShader type) in
     let status_query := glGetShaderiv h GL_COMPILE_STATUS in
     let length_query := glGetShaderiv h GL_INFO_LOG_LENGTH in
     let setup := shader_setup h type name code in
     let status := d (hist ++ setup) status_query in
     let compiled := hist ++ setup ++ [Ev status_query status] in
     let n := d compiled length_query in
     let log :=
       d (compiled ++ [Ev length_query n; Ev (new_char_array (to_size_t n)) tt])
         (glGetShaderInfoLog h n nullptr) in
     stdout_writes (trace d hist (GLSLShader.GLSLShader type name code))
     = if status =? GL_FALSE
       then (if 0 <? n then [Some ("LOG: " ++ log ++ LF)%string] else [None])
       else [])
    /\ (let h := d hist glCreateProgram in
        let status_query := glGetProgramiv h GL_LINK_STATUS in
        let length_query := glGetProgramiv h GL_INFO_LOG_LENGTH in
        let setup := program_setup h name shaders in
        let status := d (hist ++ setup) status_query in
        let linked := hist ++ setup ++ [Ev status_query status] in
        let n := d linked length_query in
        let log :=
          d (linked ++ [Ev length_query n; Ev (new_char_array (to_size_t n)) tt])
            (glGetProgramInfoLog h n nullptr) in
        stdout_writes (trace d hist (GLSLProgram.GLSLProgram name shaders))
        = if status =? 0
          then (if 0 <? n then [Some ("LOG: " ++ log ++ LF)%string] else [None])
          else []).
Proof.
  intros d hist type name code shaders. split; cbv zeta.
  - unfold trace. rewrite run_shader_construction. cbv zeta. cbn [fst].
    unfold outcome, trace. rewrite run_shader_getLog. cbv zeta.
    unfold stdout_writes, shader_setup.
    destruct (_ =? GL_FALSE); [|reflexivity].
    destruct (0 <? _); reflexivity.
  - unfold trace. rewrite run_program_construction. cbv zeta. cbn [fst].
    unfold outcome, trace. rewrite run_program_getLog. cbv zeta.
    unfold stdout_writes, program_setup.
    rewrite !calls_app, !flat_map_app.
    assert (Hatt : forall h l,
      flat_map (fun c => match c with printf f a => [formatted f a] | _ => [] end)
        (calls (attach_events h l)) = []).
    { intros h l. induction l; simpl; auto. }
    assert (Hdet : forall h l,
      flat_map (fun c => match c with printf f a => [formatted f a] | _ => [] end)
        (calls (detach_events h l)) = []).
    { intros h l. induction l; simpl; auto. }
    rewrite Hatt, Hdet, app_nil_r.
    destruct (_ =? 0); [|reflexivity].
    destruct (0 <? _); reflexivity.
Qed.

(** ** Framebuffers: the target the methods use *)

(** X3.  [attach], [detach] and [status] act on the stored target, which
    is the one of the most recent [bind]: after [bind(t)] they address [t];
    after [unbind()] they address target [0] until the next [bind].
    [detach] attaches texture [0] at level [0], and [complete] answers
    [true] exactly when the one status query it makes is answered
    [GL_FRAMEBUFFER_COMPLETE]. *)
Theorem X3_fbo_methods_follow_the_stored_target :
  forall (d : Driver) (hist : list Event) (fbo : GLFBO.t) (t attachment : GLenum)
         (texture : GLuint) (level : Z),
    let h := GLFBO.handle fbo in
    calls (trace d hist (b <- GLFBO.bind fbo t ;;
                         GLFBO.attach b attachment texture level ;;
                         GLFBO.detach b attachment ;;
                         GLFBO.status b))
    = [glBindFramebuffer t h;
       glFramebufferTexture t attachment texture level;
       glFramebufferTexture t attachment 0 0;
       glCheckFramebufferStatus t]
    /\ calls (trace d hist (b <- GLFBO.bind fbo t ;;
                            u <- GLFBO.unbind b ;;
                            GLFBO.attach u attachment texture level ;;
                            GLFBO.detach u attachment ;;
                            GLFBO.status u))
       = [glBindFramebuffer t h;
          glBindFramebuffer t 0;
          glFramebufferTexture 0 attachment texture level;
          glFramebufferTexture 0 attachment 0 0;
          glCheckFramebufferStatus 0]
    /\ (let answered := d hist (glCheckFramebufferStatus (GLFBO.target fbo)) in
        run d hist (GLFBO.complete fbo)
        = ([Ev (glCheckFramebufferStatus (GLFBO.target fbo)) answered],
           Returned (answered =? GL_FRAMEBUFFER_COMPLETE))
        /\ (outcome d hist (GLFBO.complete fbo) = Returned true
            <-> answered = GL_FRAMEBUFFER_COMPLETE)).
Proof.
  intros d hist fbo t attachment texture level h.
  split; [reflexivity|]. split; [reflexivity|].
  cbv zeta. split; [reflexivity|].
  unfold outcome. simpl. split.
  - intro H. injection H as H. apply Z.eqb_eq. exact H.
  - intro H. rewrite H. reflexivity.
Qed.

(** ** The debug string tables, read backwards *)

(** X6.  Within each table the labels are pairwise different, and
    ["UNKNOWN"] is no case's label: a value of the table is the only value
    with its label, and a value is labelled ["UNKNOWN"] exactly when it is
    outside the table. *)
Theorem X6_labels_identify_the_enumerants :
  forall v w : GLenum,
    ((debugSourceString v = Some "UNKNOWN" <-> ~ In v (List.map fst source_labels))
     /\ (In v (List.map fst source_labels) ->
         debugSourceString v = debugSourceString w -> v = w))
    /\ ((debugTypeString v = Some "UNKNOWN" <-> ~ In v (List.map fst type_labels))
        /\ (In v (List.map fst type_labels) ->
            debugTypeString v = debugTypeString w -> v = w))
    /\ ((debugSeverityString v = Some "UNKNOWN" <-> ~ In v (List.map fst severity_labels))
        /\ (In v (List.map fst severity_labels) ->
            debugSeverityString v = debugSeverityString w -> v = w)).
Proof.
  intros v w. split; [|split].
  - split; [split|].
    + intros Hu Hin. simpl in Hin.
      repeat (destruct Hin as [Hin | Hin]; [subst v; discriminate Hu|]). exact Hin.
    + intro Hout. simpl in Hout. unfold debugSourceString.
      switch_cases; try reflexivity; exfalso; apply Hout; subst v; tauto.
    + intros Hin Heq. simpl in Hin.
      repeat (destruct Hin as [Hin | Hin];
              [subst v; unfold debugSourceString at 2 in Heq; revert Heq;
               switch_cases; intro Heq; first [discriminate Heq | congruence]|]).
      destruct Hin.
  - split; [split|].
    + intros Hu Hin. simpl in Hin.
      repeat (destruct Hin as [Hin | Hin]; [subst v; discriminate Hu|]). exact Hin.
    + intro Hout. simpl in Hout. unfold debugTypeString.
      switch_cases; try reflexivity; exfalso; apply Hout; subst v; tauto.
    + intros Hin Heq. simpl in Hin.
      repeat (destruct Hin as [Hin | Hin];
              [subst v; unfold debugTypeString at 2 in Heq; revert Heq;
               switch_cases; intro Heq; first [discriminate Heq | congruence]|]).
      destruct Hin.
  - split; [split|].
    + intros Hu Hin. simpl in Hin.
      repeat (destruct Hin as [Hin | Hin]; [subst v; discriminate Hu|]). exact Hin.
    + intro Hout. simpl in Hout. unfold debugSeverityString.
      switch_cases; try reflexivity; exfalso; apply Hout; subst v; tauto.
    + intros Hin Heq. simpl in Hin.
      repeat (destruct Hin as [Hin | Hin];
              [subst v; unfold debugSeverityString at 2 in Heq; revert Heq;
               switch_cases; intro Heq; first [discriminate Heq | congruence]|]).
      destruct Hin.
Qed.

(** ** Nesting of marker scopes *)

Lemma group_depth_app (a b : list Call) :
  group_depth (a ++ b) = group_depth a + group_depth b.
Proof.
  induction a as [| c a IH]; simpl; [reflexivity|].
  fold (group_depth (a ++ b)). fold (group_depth a). rewrite IH.
  destruct c; lia.
Qed.

Lemma run_scope (NDEBUG : bool) (d : Driver) (hist : list Event) (msg : c_str)
    (A : Type) (body : Prog A) :
  let push := Ev (glPushDebugGroup GL_DEBUG_SOURCE_APPLICATION 0 (-1) msg) tt in
  let pop := Ev glPopDebugGroup tt in
  let entry := if NDEBUG then [] else [push] in
  run d hist (GLScopedDebugMarker.scope NDEBUG msg body)
  = match outcome d (hist ++ entry) body with
    | Returned a =>
        (entry ++ trace d (hist ++ entry) body ++ (if NDEBUG then [] else [pop]),
         Returned a)
    | Exited s => (entry ++ trace d (hist ++ entry) body, Exited s)
    end.
Proof.
  intros push pop entry. subst entry push pop.
  unfold GLScopedDebugMarker.scope.
  destruct NDEBUG; destruct (outcome d _ body) as [a | s] eqn:Hbody.
  - eapply run_then; [reflexivity|].
    eapply run_then; [rewrite run_eta, Hbody; reflexivity|].
    reflexivity.
  - etransitivity.
    { eapply run_then; [reflexivity|]. rewrite run_bind, Hbody. reflexivity. }
    reflexivity.
  - eapply run_then; [simpl; void_answers d; reflexivity|].
    eapply run_then; [rewrite run_eta, Hbody; reflexivity|].
    simpl. void_answers d. reflexivity.
  - etransitivity.
    { eapply run_then; [simpl; void_answers d; reflexivity|].
      rewrite run_bind, Hbody. reflexivity. }
    reflexivity.
Qed.

(** X7.  In either build, a marker scope whose statements complete
    leaves as many debug groups open as its statements alone do, so scopes
    nest: the groups of an inner scope are closed before the outer one's.
    When the statements end the process instead, the destructor does not
    run and, without [NDEBUG], the scope's own group stays open. *)
Theorem X7_marker_scope_keeps_group_depth :
  forall (NDEBUG : bool) (d : Driver) (hist : list Event) (msg : c_str)
         (A : Type) (body : Prog A),
    let push := Ev (glPushDebugGroup GL_DEBUG_SOURCE_APPLICATION 0 (-1) msg) tt in
    let inside := hist ++ (if NDEBUG then [] else [push]) in
    let guarded := GLScopedDebugMarker.scope NDEBUG msg body in
    match outcome d inside body with
    | Returned a =>
        outcome d hist guarded = Returned a
        /\ group_depth (calls (trace d hist guarded))
           = group_depth (calls (trace d inside body))
    | Exited s =>
        outcome d hist guarded = Exited s
        /\ group_depth (calls (trace d hist guarded))
           = (if NDEBUG then 0 else 1) + group_depth (calls (trace d inside body))
    end.
Proof.
  intros NDEBUG d hist msg A body push inside guarded.
  subst guarded inside push. unfold outcome at 2 3, trace at 1 3.
  rewrite run_scope. cbv zeta.
  destruct (outcome d _ body) as [a | s]; cbn [fst snd]; (split; [reflexivity|]);
    rewrite !calls_app, !group_depth_app; destruct NDEBUG; cbn -[Z.add]; lia.
Qed.

(** ** Buffers and textures keep their target *)

(** A loop whose body is always one call satisfying [P] issues as many
    calls as the list has elements, all satisfying [P], and returns. *)
Lemma run_for_each_one_call {X : Type} (d : Driver) (body : X -> Prog unit)
    (P : Call -> Prop) :
  (forall hist x, exists e,
      run d hist (body x) = ([e], Returned tt) /\ P (call_of e)) ->
  forall xs hist, exists t,
    run d hist (for_each xs body) = (t, Returned tt)
    /\ Forall P (calls t)
    /\ List.length t = List.length xs.
Proof.
  intros Hbody xs. induction xs as [| x xs IH]; intro hist.
  - exists []. repeat split. constructor.
  - destruct (Hbody hist x) as (e & He & HP).
    destruct (IH (hist ++ [e])) as (t & Ht & Hall & Hlen).
    exists ([e] ++ t). split; [|split].
    + simpl for_each. eapply run_then; [exact He | exact Ht].
    + simpl. constructor; assumption.
    + simpl. rewrite Hlen. reflexivity.
Qed.

Lemma buffer_invoke_one_call (d : Driver) (this : GLBuffer.t) (hist : list Event)
    (m : BufferMethod) :
  exists e,
    run d hist (buffer_invoke this m) = ([e], Returned tt)
    /\ target_argument (call_of e) = Some (GLBuffer.target this).
Proof.
  destruct m; simpl; void_answers d; eexists; split; reflexivity.
Qed.

Lemma texture_invoke_one_call (d : Driver) (this : GLTexture.t) (hist : list Event)
    (m : TextureMethod) :
  exists e,
    run d hist (texture_invoke this m) = ([e], Returned tt)
    /\ target_argument (call_of e) = Some (GLTexture.target this).
Proof.
  destruct m; simpl; void_answers d; eexists; split; reflexivity.
Qed.

(** X8.  Whatever methods are called on a [GLBuffer] or a [GLTexture]
    after its construction, in whatever order, each method issues exactly
    one driver call, and every call of the whole run that takes a target
    takes the one given to the constructor; the run returns. *)
Theorem X8_buffer_and_texture_calls_keep_the_constructor_target :
  forall (d : Driver) (hist : list Event) (target : GLenum) (name : string)
         (levels : GLsizei) (internalformat : GLenum) (width height depth : GLsizei)
         (buffer_calls : list BufferMethod) (texture_calls : list TextureMethod),
    let on_target (c : Call) :=
      target_argument c = None \/ target_argument c = Some target in
    (let p := this <- GLBuffer.GLBuffer target name ;;
              for_each buffer_calls (buffer_invoke this) in
     Forall on_target (calls (trace d hist p))
     /\ List.length (trace d hist p) = (3 + List.length buffer_calls)%nat
     /\ outcome d hist p = Returned tt)
    /\ (let p := this <- GLTexture.GLTexture target name levels internalformat
                           width height depth ;;
                 for_each texture_calls (texture_invoke this) in
        Forall on_target (calls (trace d hist p))
        /\ List.length (trace d hist p) = (4 + List.length texture_calls)%nat
        /\ outcome d hist p = Returned tt).
Proof.
  intros d hist target name levels internalformat width height depth
         buffer_calls texture_calls on_target.
  split; cbv zeta.
  - set (this := {| GLBuffer.handle := d hist (glGenBuffers 1);
                    GLBuffer.target := target |}).
    assert (Hnew : exists t0,
      run d hist (GLBuffer.GLBuffer target name) = (t0, Returned this)
      /\ Forall on_target (calls t0) /\ List.length t0 = 3%nat).
    { eexists. split; [simpl; void_answers d; reflexivity|]. split.
      - unfold on_target.
        repeat (apply Forall_cons; [first [left; reflexivity | right; reflexivity]|]).
        apply Forall_nil.
      - reflexivity. }
    destruct Hnew as (t0 & Hnew & Hall0 & Hlen0).
    destruct (run_for_each_one_call d (buffer_invoke this) on_target
                (fun h x =>
                   match buffer_invoke_one_call d this h x with
                   | ex_intro _ e (conj He Ht) => ex_intro _ e (conj He (or_intror Ht))
                   end)
                buffer_calls (hist ++ t0)) as (t & Ht & Hall & Hlen).
    unfold trace, outcome. rewrite (run_then d hist _ _ t0 this t _ Hnew Ht).
    cbn [fst snd]. rewrite calls_app, length_app, Hlen0, Hlen.
    repeat split. apply Forall_app. split; assumption.
  - assert (Hnew : exists t0 this,
      run d hist (GLTexture.GLTexture target name levels internalformat
                    width height depth) = (t0, Returned this)
      /\ GLTexture.target this = target
      /\ Forall on_target (calls t0) /\ List.length t0 = 4%nat).
    { unfold GLTexture.GLTexture.
      destruct (negb (depth =? 1)); [|destruct (negb (height =? 1))];
        (eexists; eexists; split; [simpl; void_answers d; reflexivity|];
         split; [reflexivity|]; split; [|reflexivity];
         unfold on_target;
         repeat (apply Forall_cons; [first [left; reflexivity | right; reflexivity]|]);
         apply Forall_nil). }
    destruct Hnew as (t0 & this & Hnew & Htarget & Hall0 & Hlen0).
    destruct (run_for_each_one_call d (texture_invoke this) on_target
                (fun h x =>
                   match texture_invoke_one_call d this h x with
                   | ex_intro _ e (conj He Ht) =>
                       ex_intro _ e
                         (conj He (or_intror (eq_trans Ht (f_equal Some Htarget))))
                   end)
                texture_calls (hist ++ t0)) as (t & Ht & Hall & Hlen).
    unfold trace, outcome. rewrite (run_then d hist _ _ t0 this t _ Hnew Ht).
    cbn [fst snd]. rewrite calls_app, length_app, Hlen0, Hlen.
    repeat split. apply Forall_app. split; assumption.
Qed.

(** ** Sizes and offsets of buffer calls *)

Lemma signed_conversion (x : Z) :
  0 <= x < 2 ^ 64 -> to_GLsizeiptr x = signed64 x /\ to_GLintptr x = signed64 x.
Proof.
  intro Hx. unfold to_GLsizeiptr, to_GLintptr, signed64.
  assert (H63 : 2 ^ 63 = 9223372036854775808) by reflexivity.
  assert (H64 : 2 ^ 64 = 18446744073709551616) by reflexivity.
  rewrite H63, H64 in *.
  destruct (x <? 9223372036854775808) eqn:E.
  - apply Z.ltb_lt in E. rewrite Z.mod_small by lia. split; lia.
  - apply Z.ltb_ge in E.
    replace (x + 9223372036854775808)
      with (x - 9223372036854775808 + 1 * 18446744073709551616) by lia.
    rewrite Z_mod_plus_full, Z.mod_small by lia. split; lia.
Qed.

(** X9.  The [size_t] sizes and offsets of [bindRange], [setStorage],
    [setData], [setSubData] and [mapRange] reach the driver converted to a
    signed 64-bit integer: unchanged when below [2^63], and as the negative
    number [x - 2^64] from [2^63] on. *)
Theorem X9_buffer_sizes_reach_the_driver_signed :
  forall (d : Driver) (hist : list Event) (b : GLBuffer.t) (index : GLuint)
         (offset sz : size_t) (data : pointer) (flags : GLbitfield)
         (usage : GLenum) (access : GLbitfield),
    0 <= offset < 2 ^ 64 ->
    0 <= sz < 2 ^ 64 ->
    let target := GLBuffer.target b in
    let issued (p : Prog unit) := calls (trace d hist p) in
    issued (GLBuffer.bindRange b index offset sz)
    = [glBindBufferRange target index (GLBuffer.handle b) (signed64 offset) (signed64 sz)]
    /\ issued (GLBuffer.setStorage b sz data flags)
       = [glBufferStorage target (signed64 sz) data flags]
    /\ issued (GLBuffer.setData b sz data usage)
       = [glBufferData target (signed64 sz) data usage]
    /\ issued (GLBuffer.setSubData b offset sz data)
       = [glBufferSubData target (signed64 offset) (signed64 sz) data]
    /\ issued (GLBuffer.mapRange b offset sz access)
       = [glMapBufferRange target (signed64 offset) (signed64 sz) access]
    /\ (sz < 2 ^ 63 -> signed64 sz = sz)
    /\ (2 ^ 63 <= sz -> signed64 sz = sz - 2 ^ 64 /\ signed64 sz < 0).
Proof.
  intros d hist b index offset sz data flags usage access Hoffset Hsz target issued.
  destruct (signed_conversion offset Hoffset) as [Hop Hoi].
  destruct (signed_conversion sz Hsz) as [Hsp Hsi].
  subst issued target. cbv beta.
  unfold trace, GLBuffer.bindRange, GLBuffer.setStorage, GLBuffer.setData,
    GLBuffer.setSubData, GLBuffer.mapRange.
  rewrite Hoi, Hsp.
  repeat (split; [reflexivity|]).
  unfold signed64. split.
  - intro H. apply Z.ltb_lt in H. rewrite H. reflexivity.
  - intro H. apply Z.ltb_ge in H. rewrite H. split; lia.
Qed.

Lemma X9_sizes_witness :
  (0 <= 16 < 2 ^ 64) /\ (0 <= 2 ^ 63 + 4 < 2 ^ 64)
  /\ calls (trace working_driver []
              (GLBuffer.setSubData
                 {| GLBuffer.handle := 7; GLBuffer.target := GL_ARRAY_BUFFER |}
                 16 (2 ^ 63 + 4) nullptr))
     = [glBufferSubData GL_ARRAY_BUFFER (signed64 16) (signed64 (2 ^ 63 + 4)) nullptr].
Proof.
  assert (H1 : 0 <= 16 < 2 ^ 64) by (split; [discriminate | reflexivity]).
  assert (H2 : 0 <= 2 ^ 63 + 4 < 2 ^ 64) by (split; [discriminate | reflexivity]).
  split; [exact H1|]. split; [exact H2|].
  apply (X9_buffer_sizes_reach_the_driver_signed working_driver []
           {| GLBuffer.handle := 7; GLBuffer.target := GL_ARRAY_BUFFER |}
           0 16 (2 ^ 63 + 4) nullptr 0 0 0 H1 H2).
Defined.

(** ** The log buffer is as large as announced *)

(** X10.  For a reported log length in the range of [int], each
    [getLog] announces to the driver exactly the size of the array it has
    just allocated: for a positive length the calls are the length query,
    the allocation of that many characters and the fetch with that buffer
    size; for a length of zero or less the length query is the only call,
    so there is neither an allocation nor a fetch. *)
Theorem X10_getLog_fetches_into_a_buffer_of_the_announced_size :
  forall (d : Driver) (hist : list Event) (shader : GLSLShader.t) (program : GLSLProgram.t),
    let ns := d hist (glGetShaderiv (GLSLShader.handle shader) GL_INFO_LOG_LENGTH) in
    let np := d hist (glGetProgramiv (GLSLProgram.handle program) GL_INFO_LOG_LENGTH) in
    let ts := trace d hist (GLSLShader.getLog shader) in
    let tp := trace d hist (GLSLProgram.getLog program) in
    is_int ns -> is_int np ->
    (fetch_sizes ts = heap_allocations ts
     /\ (0 < ns ->
         calls ts = [glGetShaderiv (GLSLShader.handle shader) GL_INFO_LOG_LENGTH;
                     new_char_array ns;
                     glGetShaderInfoLog (GLSLShader.handle shader) ns nullptr])
     /\ (ns <= 0 ->
         calls ts = [glGetShaderiv (GLSLShader.handle shader) GL_INFO_LOG_LENGTH]
         /\ fetch_sizes ts = [] /\ heap_allocations ts = [])
     /\ (heap_allocations ts = if 0 <? ns then [ns] else [])
     /\ (fetch_sizes ts = if 0 <? ns then [ns] else []))
    /\ (fetch_sizes tp = heap_allocations tp
        /\ (0 < np ->
            calls tp = [glGetProgramiv (GLSLProgram.handle program) GL_INFO_LOG_LENGTH;
                        new_char_array np;
                        glGetProgramInfoLog (GLSLProgram.handle program) np nullptr])
        /\ (np <= 0 ->
            calls tp = [glGetProgramiv (GLSLProgram.handle program) GL_INFO_LOG_LENGTH]
            /\ fetch_sizes tp = [] /\ heap_allocations tp = [])
        /\ (heap_allocations tp = if 0 <? np then [np] else [])
        /\ (fetch_sizes tp = if 0 <? np then [np] else [])).
Proof.
  intros d hist shader program ns np ts tp Hns Hnp.
  subst ts tp. unfold trace.
  rewrite run_shader_getLog, run_program_getLog. cbv zeta. fold ns np.
  split.
  - destruct (0 <? ns) eqn:E.
    + apply Z.ltb_lt in E. cbn [fst]. unfold fetch_sizes, heap_allocations. simpl.
      rewrite (to_size_t_positive_int ns Hns E).
      split; [reflexivity|]. split; [intros _; reflexivity|].
      split; [intro H; lia|]. split; reflexivity.
    + apply Z.ltb_ge in E. cbn [fst].
      split; [reflexivity|]. split; [intro H; lia|].
      split; [intros _; repeat split|]. split; reflexivity.
  - destruct (0 <? np) eqn:E.
    + apply Z.ltb_lt in E. cbn [fst]. unfold fetch_sizes, heap_allocations. simpl.
      rewrite (to_size_t_positive_int np Hnp E).
      split; [reflexivity|]. split; [intros _; reflexivity|].
      split; [intro H; lia|]. split; reflexivity.
    + apply Z.ltb_ge in E. cbn [fst].
      split; [reflexivity|]. split; [intro H; lia|].
      split; [intros _; repeat split|]. split; reflexivity.
Qed.

Lemma X10_log_buffer_witness :
  is_int 5
  /\ fetch_sizes (trace working_driver [] (GLSLShader.getLog {| GLSLShader.handle := 7 |}))
     = heap_allocations
         (trace working_driver [] (GLSLShader.getLog {| GLSLShader.handle := 7 |})).
Proof.
  assert (H : is_int 5) by (split; [discriminate | reflexivity]).
  split; [exact H|].
  apply (X10_getLog_fetches_into_a_buffer_of_the_announced_size working_driver []
           {| GLSLShader.handle := 7 |} {| GLSLProgram.handle := 7 |} H H).
Defined.

(** ** Binding again after construction *)

Lemma program_construction_returns (d : Driver) (hist : list Event) (name : string)
    (shaders : list GLSLShader.t) :
  outcome d hist (GLSLProgram.GLSLProgram name shaders)
  = Returned {| GLSLProgram.handle := d hist glCreateProgram |}.
Proof. unfold outcome. rewrite run_program_construction. reflexivity. Qed.

Lemma program_construction_binds (d : Driver) (hist : list Event) (name : string)
    (shaders : list GLSLShader.t) :
  let h := d hist glCreateProgram in
  let status :=
    d (hist ++ program_setup h name shaders) (glGetProgramiv h GL_LINK_STATUS) in
  filter binds_or_activates (calls (trace d hist (GLSLProgram.GLSLProgram name shaders)))
  = if status =? 0 then [] else [glUseProgram h].
Proof.
  cbv zeta. unfold trace. rewrite run_program_construction. cbv zeta. cbn [fst].
  rewrite !calls_app, !filter_app.
  rewrite detach_events_bind_nothing, app_nil_r.
  unfold program_setup. rewrite !calls_app, !filter_app.
  rewrite attach_events_bind_nothing.
  destruct (d _ (glGetProgramiv _ GL_LINK_STATUS) =? 0); [|reflexivity].
  rewrite calls_app, filter_app, program_getLog_binds_nothing.
  destruct (outcome d _ (GLSLProgram.getLog _)); reflexivity.
Qed.

(** X11.  [bind()] on a freshly constructed [VAO], [GLBuffer] or
    [GLTexture] repeats the bind the constructor made: same target, same
    name.  [use()] on a freshly constructed [GLSLProgram] activates the new
    program whether or not it linked: after a successful link that is the
    second activation, after a failed link the first. *)
Theorem X11_bind_after_construction_repeats_the_constructor_bind :
  forall (d : Driver) (hist : list Event) (name : string) (target : GLenum)
         (levels : GLsizei) (internalformat : GLenum) (width height depth : GLsizei)
         (shaders : list GLSLShader.t),
    let binds (A : Type) (p : Prog A) :=
      filter binds_or_activates (calls (trace d hist p)) in
    (let bound := glBindVertexArray (d hist (glGenVertexArrays 1)) in
     binds _ (this <- VAO.VAO name ;; VAO.bind this) = [bound; bound])
    /\ (let bound := glBindBuffer target (d hist (glGenBuffers 1)) in
        binds _ (this <- GLBuffer.GLBuffer target name ;; GLBuffer.bind this)
        = [bound; bound])
    /\ (let bound := glBindTexture target (d hist (glGenTextures 1)) in
        binds _ (this <- GLTexture.GLTexture target name levels internalformat
                           width height depth ;;
                 GLTexture.bind this)
        = [bound; bound])
    /\ (let h := d hist glCreateProgram in
        let status :=
          d (hist ++ program_setup h name shaders) (glGetProgramiv h GL_LINK_STATUS) in
        binds _ (this <- GLSLProgram.GLSLProgram name shaders ;; GLSLProgram.use this)
        = (if status =? 0 then [] else [glUseProgram h]) ++ [glUseProgram h]).
Proof.
  intros d hist name target levels internalformat width height depth shaders binds.
  subst binds. cbv beta zeta. split; [|split; [|split]].
  - reflexivity.
  - reflexivity.
  - unfold trace, GLTexture.GLTexture.
    destruct (negb (depth =? 1)); [|destruct (negb (height =? 1))]; reflexivity.
  - rewrite (trace_bind_returned d hist _ _ _
               (program_construction_returns d hist name shaders)).
    rewrite calls_app, filter_app.
    rewrite (program_construction_binds d hist name shaders).
    reflexivity.
Qed.
